(** * AI Scene Studio: the prompt gateway of [main.py]

    A shallow embedding of the FastAPI back end and the properties of its
    request and response shaping.

    Conventions of the embedding.
    - A Python [str] is a Rocq [string] holding the UTF-8 encoding of the
      text; operations that count characters ([s[:300]], [strip]) work on
      whole UTF-8 sequences.
    - A Python [bytes] is a [list byte].
    - A raised [Exception] is the left injection of a sum, carrying [str(e)].
    - The remote service is an oracle over the history of the calls made so
      far; every endpoint threads that history through its calls. Building
      the client may raise, as any statement inside a [try] may. *)

From Stdlib Require Import Arith NArith List String Ascii Bool Lia.
From Stdlib Require Import Init.Byte Strings.Byte DecimalString.
Import ListNotations.
Open Scope string_scope.

Definition bytes := list byte.

(** [str(e)] of the exception being raised. *)
Definition Exc := string.

Definition result (A : Type) : Type := (Exc + A)%type.

(* ------------------------------------------------------------------ *)
(** ** Python string primitives used by the source *)

Module Py.

(** [x or y] on strings: the empty string is the only falsy one. *)
Definition or_ (x y : string) : string :=
  match x with
  | EmptyString => y
  | String _ _ => x
  end.

(** [bool(s)] of a string. *)
Definition truthy (s : string) : bool :=
  match s with
  | EmptyString => false
  | String _ _ => true
  end.

(** [ch in s] for a one-character [ch]. *)
Fixpoint contains_char (ch : ascii) (s : string) : bool :=
  match s with
  | EmptyString => false
  | String c r => if Ascii.eqb c ch then true else contains_char ch r
  end.

(** [s.split(ch, 1)] when [ch] occurs in [s]: the text before the first
    occurrence and the text after it. *)
Fixpoint split_once (ch : ascii) (s : string) : option (string * string) :=
  match s with
  | EmptyString => None
  | String c r =>
      if Ascii.eqb c ch then Some (EmptyString, r)
      else match split_once ch r with
           | Some (a, b) => Some (String c a, b)
           | None => None
           end
  end.

(** [s.split(ch)[-1]]: the text after the last occurrence of [ch], or all
    of [s] when there is none. *)
Fixpoint split_last (ch : ascii) (s : string) : string :=
  match s with
  | EmptyString => EmptyString
  | String c r =>
      if contains_char ch r then split_last ch r
      else if Ascii.eqb c ch then r else s
  end.

(** A byte that continues a UTF-8 sequence ([10xxxxxx]). *)
Definition is_continuation (c : ascii) : bool :=
  let n := N_of_ascii c in ((128 <=? n) && (n <? 192))%N.

(** Number of characters (code points) of a string. *)
Fixpoint char_count (s : string) : nat :=
  match s with
  | EmptyString => 0
  | String c r => if is_continuation c then char_count r else S (char_count r)
  end.

(** [s[:n]]: the first [n] characters. *)
Fixpoint slice_to (n : nat) (s : string) : string :=
  match s with
  | EmptyString => EmptyString
  | String c r =>
      if is_continuation c then String c (slice_to n r)
      else match n with
           | O => EmptyString
           | S n' => String c (slice_to n' r)
           end
  end.

(** Whitespace as [str.strip] sees it: the one-byte characters U+0009 to
    U+000D and U+001C to U+0020, the two-byte U+0085 and U+00A0, and the
    three-byte U+1680, U+2000 to U+200A, U+2028, U+2029, U+202F, U+205F and
    U+3000. *)
Definition space1 (a : ascii) : bool :=
  let n := N_of_ascii a in
  (((9 <=? n) && (n <=? 13)) || ((28 <=? n) && (n <=? 32)))%N.

Definition space2 (a b : ascii) : bool :=
  let m := N_of_ascii a in
  let n := N_of_ascii b in
  ((m =? 194) && ((n =? 133) || (n =? 160)))%N.

Definition space3 (a b c : ascii) : bool :=
  let l := N_of_ascii a in
  let m := N_of_ascii b in
  let n := N_of_ascii c in
  (((l =? 225) && (m =? 154) && (n =? 128))
   || ((l =? 226) && (m =? 128)
       && (((128 <=? n) && (n <=? 138)) || (n =? 168) || (n =? 169) || (n =? 175)))
   || ((l =? 226) && (m =? 129) && (n =? 159))
   || ((l =? 227) && (m =? 128) && (n =? 128)))%N.

(** Drops the leading whitespace. With [backwards] the string is read from
    its end, so the bytes of a sequence arrive last byte first. *)
Fixpoint drop_space (backwards : bool) (s : string) : string :=
  match s with
  | EmptyString => EmptyString
  | String a r =>
      if space1 a then drop_space backwards r
      else match r with
           | EmptyString => s
           | String b r2 =>
               if (if backwards then space2 b a else space2 a b)
               then drop_space backwards r2
               else match r2 with
                    | EmptyString => s
                    | String c r3 =>
                        if (if backwards then space3 c b a else space3 a b c)
                        then drop_space backwards r3
                        else s
                    end
           end
  end.

Definition reverse (s : string) : string :=
  string_of_list_ascii (List.rev (list_ascii_of_string s)).

Definition lstrip (s : string) : string := drop_space false s.
Definition rstrip (s : string) : string := reverse (drop_space true (reverse s)).

(** [s.strip()] *)
Definition strip (s : string) : string := rstrip (lstrip s).

Definition is_lower (c : ascii) : bool :=
  let n := N_of_ascii c in ((97 <=? n) && (n <=? 122))%N.

(** [re.sub(r"```[a-z]*", "", s)]: every run of three backquotes is removed
    together with the lower-case letters that follow it. [in_tag] holds
    while the letters of a match are being consumed. *)
Fixpoint re_sub_fence (in_tag : bool) (s : string) : string :=
  match s with
  | EmptyString => EmptyString
  | String c r =>
      if in_tag && is_lower c then re_sub_fence true r
      else match s with
           | String "`" (String "`" (String "`" r3)) => re_sub_fence true r3
           | _ => String c (re_sub_fence false r)
           end
  end.

(** [s.replace("```", "")] *)
Fixpoint replace_fence (s : string) : string :=
  match s with
  | EmptyString => EmptyString
  | String "`" (String "`" (String "`" r3)) => replace_fence r3
  | String c r => String c (replace_fence r)
  end.

End Py.

(* ------------------------------------------------------------------ *)
(** ** [base64.b64encode] and [base64.b64decode] of the standard library *)

Module Base64.

Definition alphabet : string :=
  "ABCDEFGHIJKLMNOPQRSTUVWXYZabcdefghijklmnopqrstuvwxyz0123456789+/".

Definition pad : ascii := "="%char.

(** [table_b2a_base64]: the character of a six-bit value. *)
Definition b2a (n : N) : ascii :=
  match String.get (N.to_nat n) alphabet with
  | Some c => c
  | None => pad
  end.

Fixpoint position (c : ascii) (s : string) (i : N) : option N :=
  match s with
  | EmptyString => None
  | String d r => if Ascii.eqb c d then Some i else position c r (N.succ i)
  end.

(** [table_a2b_base64]: the six-bit value of a character of the alphabet,
    [None] for every other character. *)
Definition a2b (c : ascii) : option N := position c alphabet 0.

(** Store into an [unsigned char]. *)
Definition to_uchar (n : N) : byte :=
  match Byte.of_N (n mod 256) with
  | Some b => b
  | None => x00
  end.

(** The four six-bit groups of three bytes. *)
Definition sextet1 (x : N) : N := N.shiftr x 2.
Definition sextet2 (x y : N) : N := N.lor (N.shiftl (N.land x 3) 4) (N.shiftr y 4).
Definition sextet3 (y z : N) : N := N.lor (N.shiftl (N.land y 15) 2) (N.shiftr z 6).
Definition sextet4 (z : N) : N := N.land z 63.

(** [b64encode]: three bytes become four characters; a final group of one
    or two bytes is completed with zero bits and padded with [=]. *)
Fixpoint b64encode (b : bytes) : string :=
  match b with
  | [] => EmptyString
  | [x] =>
      let x := Byte.to_N x in
      String (b2a (sextet1 x)) (String (b2a (sextet2 x 0)) (String pad (String pad EmptyString)))
  | [x; y] =>
      let x := Byte.to_N x in
      let y := Byte.to_N y in
      String (b2a (sextet1 x)) (String (b2a (sextet2 x y))
        (String (b2a (sextet3 y 0)) (String pad EmptyString)))
  | x :: y :: z :: rest =>
      let x := Byte.to_N x in
      let y := Byte.to_N y in
      let z := Byte.to_N z in
      String (b2a (sextet1 x)) (String (b2a (sextet2 x y))
        (String (b2a (sextet3 y z)) (String (b2a (sextet4 z)) (b64encode rest))))
  end.

Definition emit (x : byte) (r : result bytes) : result bytes :=
  match r with
  | inl e => inl e
  | inr out => inr (x :: out)
  end.

(** [%zd] of a count. *)
Definition decimal (n : N) : string := NilZero.string_of_uint (N.to_uint n).

(** The message for a text that ends one character into a group, after
    [written] bytes. *)
Definition one_too_many (written : N) : Exc :=
  "Invalid base64-encoded string: number of data characters ("
  ++ decimal (written / 3 * 4 + 1)
  ++ ") cannot be 1 more than a multiple of 4".

(** [binascii.a2b_base64] without strict mode. [quad_pos] is the position
    in the current group of four, [leftchar] the bits not yet written,
    [pads] the number of [=] seen since the last character of the alphabet
    and [written] the number of bytes written so far. Characters outside
    the alphabet are skipped; padding that completes a group ends the
    decoding, whatever follows. *)
Fixpoint a2b_base64 (s : string) (quad_pos : nat) (leftchar pads written : N)
    : result bytes :=
  match s with
  | EmptyString =>
      match quad_pos with
      | 0 => inr []
      | 1 => inl (one_too_many written)
      | _ => inl "Incorrect padding"
      end
  | String c r =>
      if Ascii.eqb c pad then
        if (2 <=? quad_pos)%nat then
          if (4 <=? N.of_nat quad_pos + (pads + 1))%N then inr []
          else a2b_base64 r quad_pos leftchar (pads + 1) written
        else a2b_base64 r quad_pos leftchar pads written
      else
        match a2b c with
        | None => a2b_base64 r quad_pos leftchar pads written
        | Some v =>
            match quad_pos with
            | 0 => a2b_base64 r 1 v 0 written
            | 1 => emit (to_uchar (N.lor (N.shiftl leftchar 2) (N.shiftr v 4)))
                        (a2b_base64 r 2 (N.land v 15) 0 (written + 1))
            | 2 => emit (to_uchar (N.lor (N.shiftl leftchar 4) (N.shiftr v 2)))
                        (a2b_base64 r 3 (N.land v 3) 0 (written + 1))
            | _ => emit (to_uchar (N.lor (N.shiftl leftchar 6) v))
                        (a2b_base64 r 0 0 0 (written + 1))
            end
        end
  end.

Definition is_ascii (s : string) : bool :=
  forallb (fun c => (N_of_ascii c <? 128)%N) (list_ascii_of_string s).

(** [b64decode(s)] for a [str] argument: the text must be ASCII. *)
Definition b64decode (s : string) : result bytes :=
  if is_ascii s then a2b_base64 s 0 0 0 0
  else inl "string argument should contain only ASCII characters".

(** The numbers below [n], to check a property of bytes or of six-bit
    values case by case. *)
Fixpoint below (n : nat) : list N :=
  match n with
  | O => []
  | S k => N.of_nat k :: below k
  end.

(** What the tables and the bit operations do on every value they meet. *)
Definition table_ok (n : N) : bool :=
  match a2b (b2a n) with
  | Some m => (m =? n)%N
  | None => false
  end && negb (Ascii.eqb (b2a n) pad) && (N_of_ascii (b2a n) <? 128)%N.

Definition bits_ok (x y : N) : bool :=
  ((sextet1 x <? 64) && (sextet2 x y <? 64) && (sextet3 x y <? 64) && (sextet4 x <? 64)
   && (N.lor (N.shiftl (sextet1 x) 2) (N.shiftr (sextet2 x y) 4) mod 256 =? x)
   && (N.land (sextet2 x y) 15 =? N.shiftr y 4)
   && (N.lor (N.shiftl (N.shiftr x 4) 4) (N.shiftr (sextet3 x y) 2) mod 256 =? x)
   && (N.land (sextet3 x y) 3 =? N.shiftr y 6)
   && (N.lor (N.shiftl (N.shiftr x 6) 6) (sextet4 x) mod 256 =? x))%N.

End Base64.

(* ------------------------------------------------------------------ *)
(** ** Image utils *)

Definition b64_to_bytes (b64 : string) : result bytes :=
  let b64 :=
    if Py.contains_char "," b64 then
      match Py.split_once "," b64 with
      | Some (_, rest) => rest
      | None => b64
      end
    else b64 in
  Base64.b64decode b64.

Definition bytes_to_b64 (b : bytes) : string :=
  "data:image/png;base64," ++ Base64.b64encode b.

(* ------------------------------------------------------------------ *)
(** ** Config *)

Definition NL : string := String (ascii_of_nat 10) EmptyString.

Definition IMAGE_MODELS : list string := ["gemini-2.5-flash-image"; "gemini-2.0-flash-exp"].
Definition TEXT_MODELS : list string :=
  ["gemini-2.0-flash"; "gemini-2.0-flash-lite"; "gemini-1.5-flash"].

(** [types.GenerateContentConfig]: the keyword arguments the source sets.
    The temperature is held in hundredths (0.2 is 20, 0.35 is 35). *)
Record GenerateContentConfig := {
  response_modalities : option (list string);
  temperature : option N;
  max_output_tokens : option N
}.

Definition CFG_IMG : GenerateContentConfig :=
  {| response_modalities := Some ["Text"; "Image"];
     temperature := None;
     max_output_tokens := None |}.

Definition NO_CHANGE : string :=
  "Keep everything else in the image exactly unchanged — same composition, same subjects.".
Definition STYLE_GUARD : string :=
  "No watermarks, no text overlays, no logos. High quality output.".
Definition CHESS_BG : string :=
  "Render on a transparent/checkerboard background (like Photoshop) — no solid color bg.".

(* ------------------------------------------------------------------ *)
(** ** The remote service, as far as the source reads and writes it *)

(** [inline_data.data]: [bytes], [str], or anything else ([None] too). *)
Inductive Data :=
| DataBytes (b : bytes)
| DataStr (s : string)
| DataOther.

Record Blob := { data : Data }.
Record Part := { inline_data : option Blob }.
Record Content := { parts : option (list Part) }.
Record Candidate := { content : option Content }.
Record Response := { candidates : option (list Candidate); text : option string }.

(** An entry of [client.models.list()]. *)
Record Model := { name : option string }.

(** What is sent as [contents]: a text, or a list of parts. *)
Inductive RequestPart :=
| Part_from_bytes (data : bytes) (mime_type : string)
| Part_from_text (text : string).

Inductive Contents :=
| Text (s : string)
| Parts (l : list RequestPart).

(** The client object that [genai.Client(api_key=...)] returns: a handle
    holding the key. *)
Record Client := { api_key : string }.

(** The calls made to the remote service, oldest first. *)
Inductive Event :=
| ListModels (c : Client)
| GenerateContent (c : Client) (model : string) (contents : Contents)
                  (config : GenerateContentConfig).

Definition History := list Event.

(** The SDK and the service behind it. [genai.Client(api_key=key)] makes
    no call: it raises [client_error key] when there is one (an empty key
    is refused), and gives the client otherwise. The service answers a
    call knowing the calls made before it. *)
Record Remote := {
  client_error : string -> option Exc;
  models_list : History -> Client -> result (list Model);
  models_generate_content :
    History -> Client -> string -> Contents -> GenerateContentConfig -> result Response
}.

(** The part of PIL the source uses. *)
Record PIL := {
  Image : Type;
  Image_open : bytes -> result Image;
  Image_convert : Image -> string -> result Image;
  Image_save : Image -> string -> result bytes
}.

#[local] Set Warnings "-register-all".

(** A value produced by [json.loads]. A number keeps its Python [repr]. *)
Inductive json :=
| JNull
| JBool (b : bool)
| JNumber (repr : string)
| JString (s : string)
| JArray (l : list json)
| JObject (items : list (string * json)).

(** [json.loads] and the built-in [str] on the values it produces. *)
Record Builtins := {
  json_loads : string -> result json;
  str : json -> string
}.

(** A [dict] with string keys and values, in insertion order. *)
Definition dict := list (string * string).

Fixpoint getitem (d : dict) (k : string) : result string :=
  match d with
  | [] => inl ("'" ++ k ++ "'")
  | (k', v) :: r => if String.eqb k' k then inr v else getitem r k
  end.

Fixpoint setitem (d : dict) (k v : string) : dict :=
  match d with
  | [] => [(k, v)]
  | (k', v') :: r => if String.eqb k' k then (k', v) :: r else (k', v') :: setitem r k v
  end.

(* ------------------------------------------------------------------ *)
(** ** Computations that call the remote service and may raise *)

(** A computation reads the calls made before it and yields the calls it
    makes itself, in order, with its value or the exception it raises. *)
Definition M (A : Type) : Type := History -> list Event * result A.

Definition ret {A} (a : A) : M A := fun _ => ([], inr a).

Definition raise {A} (e : Exc) : M A := fun _ => ([], inl e).

Definition lift {A} (r : result A) : M A := fun _ => ([], r).

Definition bind {A B} (m : M A) (k : A -> M B) : M B :=
  fun h =>
    match m h with
    | (evs, inl e) => (evs, inl e)
    | (evs, inr a) =>
        match k a (h ++ evs)%list with
        | (evs', r) => ((evs ++ evs')%list, r)
        end
    end.

(** [try: m except Exception as e: handler(str(e))] *)
Definition try_except {A} (m : M A) (handler : Exc -> M A) : M A :=
  fun h =>
    match m h with
    | (evs, inl e) =>
        match handler e (h ++ evs)%list with
        | (evs', r) => ((evs ++ evs')%list, r)
        end
    | (evs, inr a) => (evs, inr a)
    end.

Declare Scope gateway_scope.
Delimit Scope gateway_scope with gw.
Notation "x <- m ;; k" := (bind m (fun x => k))
  (at level 61, m at next level, right associativity) : gateway_scope.
Notation "' p <- m ;; k" := (bind m (fun x => let p := x in k))
  (at level 61, p pattern, m at next level, right associativity) : gateway_scope.
Open Scope gateway_scope.

Record HTTPException := { status_code : N; detail : string }.

(** The result of a route: the calls it made, and an HTTP error or the body
    of the response. *)
Definition Route (A : Type) : Type := History -> list Event * (HTTPException + A).

(** [try: m except Exception as e: raise HTTPException(code, str(e))] *)
Definition or_http {A} (code : N) (m : M A) : Route A :=
  fun h =>
    match m h with
    | (evs, inl e) => (evs, inl {| status_code := code; detail := e |})
    | (evs, inr a) => (evs, inr a)
    end.

(* ------------------------------------------------------------------ *)
(** ** Prompt builders *)

Definition layer_prompt (kind main obj bg lt mood : string) : string :=
  let base := "Scene: " ++ main ++ NL ++ "Mood: " ++ Py.or_ mood "neutral" ++ NL in
  if String.eqb kind "object" then
    base ++ "Generate ONLY the isolated main subject/object." ++ NL
    ++ "Object: " ++ Py.or_ obj "infer from scene" ++ NL
    ++ "Lighting: " ++ Py.or_ lt "neutral studio" ++ NL
    ++ CHESS_BG ++ NL ++ STYLE_GUARD
  else if String.eqb kind "light" then
    base ++ "Generate ONLY a lighting/glow/atmosphere effects layer." ++ NL
    ++ "Lighting: " ++ Py.or_ lt "cinematic volumetric light, soft bloom" ++ NL
    ++ "Minimal geometry — light effects only." ++ NL ++ CHESS_BG ++ NL ++ STYLE_GUARD
  else if String.eqb kind "background" then
    base ++ "Generate ONLY the background environment. No main subject in it." ++ NL
    ++ "Background: " ++ Py.or_ bg "infer fitting background from scene" ++ NL
    ++ "Lighting: " ++ Py.or_ lt "match the mood" ++ NL ++ STYLE_GUARD
  else if String.eqb kind "combo" then
    "Render the full scene as one unified image:" ++ NL
    ++ "Scene: " ++ main ++ NL ++ "Main object: " ++ Py.or_ obj "infer" ++ NL
    ++ "Background: " ++ Py.or_ bg "infer" ++ NL ++ "Lighting: " ++ Py.or_ lt "infer" ++ NL
    ++ "Mood: " ++ mood ++ NL ++ STYLE_GUARD
  else main.

(* ------------------------------------------------------------------ *)
(** ** Request models *)

Module ConnectReq.
Record t := { apiKey : string }.
End ConnectReq.

Module GenLayerReq.
Record t := {
  apiKey : string;
  imageModel : string;
  textModel : string;
  layerType : string;
  mainPrompt : string;
  objectPrompt : string;
  backgroundPrompt : string;
  lightPrompt : string;
  moodPrompt : string;
  customPrompt : string
}.
End GenLayerReq.

Module GenAllReq.
Record t := {
  apiKey : string;
  imageModel : string;
  textModel : string;
  mainPrompt : string;
  objectPrompt : string;
  backgroundPrompt : string;
  lightPrompt : string;
  moodPrompt : string
}.
End GenAllReq.

Module EditReq.
Record t := {
  apiKey : string;
  imageModel : string;
  image : string;
  instruction : string
}.
End EditReq.

Module MergeReq.
Record t := {
  apiKey : string;
  imageModel : string;
  fgImage : string;
  bgImage : string;
  fgName : string;
  bgName : string;
  hint : string
}.
End MergeReq.

Module ImproveReq.
Record t := {
  apiKey : string;
  textModel : string;
  text : string;
  target : string
}.
End ImproveReq.

Module DecomposeReq.
Record t := {
  apiKey : string;
  textModel : string;
  mainPrompt : string
}.
End DecomposeReq.

(** The bodies of the responses. *)
Record ConnectResp := { resp_imageModel : string; resp_textModel : string }.
Record ImageResp := { resp_image : string }.
Record GenAllResp := { resp_layers : dict; resp_decomposed : dict }.
Record TextResp := { resp_text : string }.

(* ------------------------------------------------------------------ *)
(** ** Stand-ins for the collaborators, to run the gateway on examples *)

Module Sample.

(** An image is kept as its bytes; an empty file is not an image. *)
Definition pil : PIL :=
  {| Image := bytes;
     Image_open := fun b =>
       match b with
       | [] => inl "cannot identify image file"
       | _ :: _ => inr b
       end;
     Image_convert := fun img _ => inr img;
     Image_save := fun img _ => inr img |}.

Definition dquote : ascii := ascii_of_nat 34.

Definition expecting_value : Exc := "Expecting value: line 1 column 1 (char 0)".

(** Reads the empty object and a bare string without escapes. *)
Definition loads (s : string) : result json :=
  match s with
  | "{}" => inr (JObject [])
  | String c r =>
      if Ascii.eqb c dquote then
        match Py.split_once dquote r with
        | Some (body, EmptyString) => inr (JString body)
        | _ => inl expecting_value
        end
      else inl expecting_value
  | EmptyString => inl expecting_value
  end.

Definition builtins : Builtins :=
  {| json_loads := loads;
     str := fun j => match j with JString s => s | _ => EmptyString end |}.

Definition generate_calls (h : History) : nat :=
  List.length (filter (fun ev => match ev with GenerateContent _ _ _ _ => true
                                            | ListModels _ => false end) h).

(** A service that lists [models] and gives its [answers] one after the
    other, then raises. *)
Definition missing_key : Exc :=
  "Missing key inputs argument! To use the Google AI API, provide (`api_key`) arguments. To use the Google Cloud API, provide (`vertexai`, `project` & `location`) arguments.".

Definition scripted (models : result (list Model)) (answers : list (result Response))
    : Remote :=
  {| client_error := fun key =>
       match key with
       | EmptyString => Some missing_key
       | String _ _ => None
       end;
     models_list := fun _ _ => models;
     models_generate_content := fun h _ _ _ _ =>
       nth (generate_calls h) answers (inl "503 UNAVAILABLE") |}.

Definition image_part (d : Data) : Part := {| inline_data := Some {| data := d |} |}.

Definition response_of (ps : list Part) (txt : option string) : Response :=
  {| candidates := Some [{| content := Some {| parts := Some ps |} |}]; text := txt |}.

(** A generate-layer request of a given kind. *)
Definition layer_req (kind : string) : GenLayerReq.t :=
  {| GenLayerReq.apiKey := "key";
     GenLayerReq.imageModel := "gemini-2.5-flash-image";
     GenLayerReq.textModel := "gemini-2.0-flash";
     GenLayerReq.layerType := kind;
     GenLayerReq.mainPrompt := "a cat on a beach";
     GenLayerReq.objectPrompt := EmptyString;
     GenLayerReq.backgroundPrompt := "sunset beach";
     GenLayerReq.lightPrompt := EmptyString;
     GenLayerReq.moodPrompt := EmptyString;
     GenLayerReq.customPrompt := "Draw a red kite." |}.

(** A service that answers nothing. *)
Definition silent : Remote := scripted (inl "503 UNAVAILABLE") [].

(** A generate-all request with given object and background sub-prompts. *)
Definition all_req (obj bg : string) : GenAllReq.t :=
  {| GenAllReq.apiKey := "key";
     GenAllReq.imageModel := "gemini-2.5-flash-image";
     GenAllReq.textModel := "gemini-2.0-flash";
     GenAllReq.mainPrompt := "a cat on a beach";
     GenAllReq.objectPrompt := obj;
     GenAllReq.backgroundPrompt := bg;
     GenAllReq.lightPrompt := EmptyString;
     GenAllReq.moodPrompt := "calm" |}.

Definition decompose_req : DecomposeReq.t :=
  {| DecomposeReq.apiKey := "key";
     DecomposeReq.textModel := "gemini-2.0-flash";
     DecomposeReq.mainPrompt := "a cat on a beach" |}.

(** A reply carrying a (one-byte) image, and a reply of text only. *)
Definition image_reply : Response := response_of [image_part (DataBytes [x89])] None.
Definition text_reply (txt : string) : Response := response_of [] (Some txt).

(** An improve request, and a service whose reply to it has blank ends. *)
Definition improve_req : ImproveReq.t :=
  {| ImproveReq.apiKey := "key";
     ImproveReq.textModel := "gemini-2.0-flash";
     ImproveReq.text := "a cat";
     ImproveReq.target := "object" |}.

Definition padded : Remote :=
  scripted (inr []) [inr (text_reply ("  A tabby cat, side view." ++ NL))].

(** One layer is drawn, then the quota is exhausted. *)
Definition exhausted : Remote :=
  scripted (inr []) [inr image_reply; inl "429 RESOURCE_EXHAUSTED"].

(** The text model answers with something that is not JSON. *)
Definition chatty : Remote :=
  scripted (inr []) [inr (text_reply ("```json" ++ NL ++ "Sure! Here it is." ++ NL ++ "```"))].

Definition connect_req : ConnectReq.t := {| ConnectReq.apiKey := "key" |}.

(** A connect request that comes without a key. *)
Definition keyless_req : ConnectReq.t := {| ConnectReq.apiKey := EmptyString |}.

(** What a service may list: full paths, an entry without a name, and a
    model the gateway does not know. *)
Definition listed : list Model :=
  [{| name := Some "models/gemini-2.0-flash-lite" |};
   {| name := None |};
   {| name := Some "models/gemini-2.0-flash-exp" |};
   {| name := Some "models/embedding-001" |}].

(** A service that lists [listed] and answers the test call. *)
Definition listing : Remote := scripted (inr listed) [inr (text_reply "OK")].

(** A service that draws every time it is asked, five times. *)
Definition painter : Remote :=
  scripted (inr [])
    [inr image_reply; inr image_reply; inr image_reply; inr image_reply; inr image_reply].

Definition edit_req (image : string) : EditReq.t :=
  {| EditReq.apiKey := "key";
     EditReq.imageModel := "gemini-2.5-flash-image";
     EditReq.image := image;
     EditReq.instruction := "Make the sky purple." |}.

Definition merge_req (fg bg hint : string) : MergeReq.t :=
  {| MergeReq.apiKey := "key";
     MergeReq.imageModel := "gemini-2.5-flash-image";
     MergeReq.fgImage := fg;
     MergeReq.bgImage := bg;
     MergeReq.fgName := "cat";
     MergeReq.bgName := "sunset beach";
     MergeReq.hint := hint |}.

End Sample.

(* ------------------------------------------------------------------ *)
(** ** The gateway *)

Section Gateway.

Variable pil : PIL.
Variable builtins : Builtins.
Variable remote : Remote.

(** [genai.Client(api_key=key)] *)
Definition genai_Client (key : string) : M Client :=
  lift match client_error remote key with
       | Some e => inl e
       | None => inr {| api_key := key |}
       end.

(** [client.models.list()] *)
Definition list_models (c : Client) : M (list Model) :=
  fun h => ([ListModels c], models_list remote h c).

(** [client.models.generate_content(model=..., contents=..., config=...)] *)
Definition generate_content (c : Client) (model : string) (contents : Contents)
    (config : GenerateContentConfig) : M Response :=
  fun h => ([GenerateContent c model contents config],
            models_generate_content remote h c model contents config).

Definition to_png (img : Image pil) : result bytes :=
  match Image_convert pil img "RGBA" with
  | inl e => inl e
  | inr rgba => Image_save pil rgba "PNG"
  end.

(** [to_png(Image.open(BytesIO(d)))] *)
Definition open_to_png (d : bytes) : result bytes :=
  match Image_open pil d with
  | inl e => inl e
  | inr img => to_png img
  end.

(** [getattr(getattr(p, "inline_data", None), "data", None)] *)
Definition part_data (p : Part) : Data :=
  match inline_data p with
  | Some blob => data blob
  | None => DataOther
  end.

(** The inner loop of [extract_img]: [Some] when the loop returns or raises,
    [None] when it runs to its end. *)
Fixpoint scan_parts (ps : list Part) : option (result bytes) :=
  match ps with
  | [] => None
  | p :: rest =>
      match part_data p with
      | DataBytes d => Some (open_to_png d)
      | DataStr d =>
          Some match Base64.b64decode d with
               | inl e => inl e
               | inr raw => open_to_png raw
               end
      | DataOther => scan_parts rest
      end
  end.

(** [getattr(getattr(c, "content", None), "parts", []) or []] *)
Definition candidate_parts (c : Candidate) : list Part :=
  match content c with
  | Some ct => match parts ct with Some ps => ps | None => [] end
  | None => []
  end.

Fixpoint scan_candidates (cs : list Candidate) : option (result bytes) :=
  match cs with
  | [] => None
  | c :: rest =>
      match scan_parts (candidate_parts c) with
      | Some r => Some r
      | None => scan_candidates rest
      end
  end.

(** [getattr(resp, "candidates", []) or []] *)
Definition response_candidates (resp : Response) : list Candidate :=
  match candidates resp with Some cs => cs | None => [] end.

(** [getattr(resp, "text", "") or ""] *)
Definition response_text (resp : Response) : string :=
  match text resp with Some s => s | None => EmptyString end.

Definition extract_img (resp : Response) (model : string) : result bytes :=
  match scan_candidates (response_candidates resp) with
  | Some r => r
  | None =>
      let txt := Py.slice_to 300 (response_text resp) in
      inl ("No image in response from [" ++ model ++ "]. Got: " ++ txt)
  end.

Definition mem (x : string) (l : list string) : bool :=
  existsb (String.eqb x) l.

(** [{m.name.split("/")[-1] for m in models if m.name}], as the list of its
    elements. *)
Fixpoint model_names (ms : list Model) : list string :=
  match ms with
  | [] => []
  | m :: rest =>
      match name m with
      | Some n => if Py.truthy n then Py.split_last "/" n :: model_names rest
                  else model_names rest
      | None => model_names rest
      end
  end.

(** [next((m for m in preferred if m in names), default)] *)
Definition next_in (preferred names : list string) (default : string) : string :=
  match find (fun m => mem m names) preferred with
  | Some m => m
  | None => default
  end.

Definition detect_models (client : Client) : M (string * string) :=
  try_except
    (ms <- list_models client ;;
     let names := model_names ms in
     let img := next_in IMAGE_MODELS names (hd EmptyString IMAGE_MODELS) in
     let txt := next_in TEXT_MODELS names (hd EmptyString TEXT_MODELS) in
     ret (img, txt))
    (fun _ => ret (hd EmptyString IMAGE_MODELS, hd EmptyString TEXT_MODELS)).

Definition empty_decomposition : dict :=
  [("object", EmptyString); ("background", EmptyString);
   ("light", EmptyString); ("mood", EmptyString)].

(** [j.get(k, "")]: only a [dict] has the method. *)
Definition json_get (j : json) (k : string) : result json :=
  match j with
  | JObject items =>
      match find (fun kv => String.eqb (fst kv) k) items with
      | Some (_, v) => inr v
      | None => inr (JString EmptyString)
      end
  | _ => inl "object has no attribute 'get'"
  end.

(** [{k: str(j.get(k, "")) for k in keys}] *)
Fixpoint pick_keys (j : json) (keys : list string) : result dict :=
  match keys with
  | [] => inr []
  | k :: rest =>
      match json_get j k with
      | inl e => inl e
      | inr v =>
          match pick_keys j rest with
          | inl e => inl e
          | inr d => inr ((k, str builtins v) :: d)
          end
      end
  end.

(** The text of the reply with its code fences removed. *)
Definition clean_text (resp : Response) : string :=
  Py.strip (Py.replace_fence (Py.re_sub_fence false (response_text resp))).

Definition parse_decomposition (txt : string) : dict :=
  match (match json_loads builtins txt with
         | inl e => inl e
         | inr j => pick_keys j ["object"; "background"; "light"; "mood"]
         end) with
  | inr d => d
  | inl _ => empty_decomposition
  end.

Definition decompose_contents (prompt : string) : Contents :=
  Text ("Decompose this scene prompt into JSON with keys: object, background, light, mood. "
        ++ "Short concrete values. No markdown, no code fences." ++ NL ++ NL
        ++ "PROMPT: " ++ prompt).

Definition decompose_config : GenerateContentConfig :=
  {| response_modalities := None; temperature := Some 20%N; max_output_tokens := None |}.

Definition decompose_sync (client : Client) (text_model prompt : string) : M dict :=
  resp <- generate_content client text_model (decompose_contents prompt) decompose_config ;;
  ret (parse_decomposition (clean_text resp)).

(* ------------------------------------------------------------------ *)
(** ** Routes *)

Definition connect_config : GenerateContentConfig :=
  {| response_modalities := None; temperature := None; max_output_tokens := Some 5%N |}.

Definition connect (req : ConnectReq.t) : Route ConnectResp :=
  or_http 400
    (c <- genai_Client (ConnectReq.apiKey req) ;;
     '(im, tm) <- detect_models c ;;
     _ <- generate_content c tm (Text "Reply with just the word OK.") connect_config ;;
     ret {| resp_imageModel := im; resp_textModel := tm |}).

(** The instruction text of a generate-layer request. *)
Definition gen_layer_prompt (req : GenLayerReq.t) : string :=
  if String.eqb (GenLayerReq.layerType req) "custom" then GenLayerReq.customPrompt req
  else layer_prompt (GenLayerReq.layerType req) (GenLayerReq.mainPrompt req)
         (GenLayerReq.objectPrompt req) (GenLayerReq.backgroundPrompt req)
         (GenLayerReq.lightPrompt req) (GenLayerReq.moodPrompt req).

Definition gen_layer (req : GenLayerReq.t) : Route ImageResp :=
  or_http 500
    (c <- genai_Client (GenLayerReq.apiKey req) ;;
     let prompt := gen_layer_prompt req in
     resp <- generate_content c (GenLayerReq.imageModel req) (Text prompt) CFG_IMG ;;
     png <- lift (extract_img resp (GenLayerReq.imageModel req)) ;;
     ret {| resp_image := bytes_to_b64 png |}).

(** The decomposition the layers are built from: asked of the text model
    when the object and background sub-prompts are both empty, taken from
    the request otherwise. *)
Definition gen_all_dec (c : Client) (req : GenAllReq.t) : M dict :=
  if negb (Py.truthy (GenAllReq.objectPrompt req))
     && negb (Py.truthy (GenAllReq.backgroundPrompt req))
  then decompose_sync c (GenAllReq.textModel req) (GenAllReq.mainPrompt req)
  else ret [("object", GenAllReq.objectPrompt req);
            ("background", GenAllReq.backgroundPrompt req);
            ("light", GenAllReq.lightPrompt req);
            ("mood", GenAllReq.moodPrompt req)].

(** The body of the loop of [gen_all], for one kind. *)
Definition gen_all_layer (c : Client) (req : GenAllReq.t) (dec : dict) (kind : string)
    : M string :=
  o <- lift (getitem dec "object") ;;
  b <- lift (getitem dec "background") ;;
  l <- lift (getitem dec "light") ;;
  m <- lift (getitem dec "mood") ;;
  let p := layer_prompt kind (GenAllReq.mainPrompt req) o b l m in
  resp <- generate_content c (GenAllReq.imageModel req) (Text p) CFG_IMG ;;
  png <- lift (extract_img resp (GenAllReq.imageModel req)) ;;
  ret (bytes_to_b64 png).

(** [for kind in kinds: results[kind] = ...] *)
Fixpoint gen_all_loop (c : Client) (req : GenAllReq.t) (dec : dict)
    (kinds : list string) (results : dict) : M dict :=
  match kinds with
  | [] => ret results
  | kind :: rest =>
      img <- gen_all_layer c req dec kind ;;
      gen_all_loop c req dec rest (setitem results kind img)
  end.

Definition LAYER_KINDS : list string := ["object"; "background"; "light"; "combo"].

Definition gen_all (req : GenAllReq.t) : Route GenAllResp :=
  or_http 500
    (c <- genai_Client (GenAllReq.apiKey req) ;;
     dec <- gen_all_dec c req ;;
     results <- gen_all_loop c req dec LAYER_KINDS [] ;;
     ret {| resp_layers := results; resp_decomposed := dec |}).

Definition edit (req : EditReq.t) : Route ImageResp :=
  or_http 500
    (c <- genai_Client (EditReq.apiKey req) ;;
     src <- lift (b64_to_bytes (EditReq.image req)) ;;
     resp <- generate_content c (EditReq.imageModel req)
               (Parts [Part_from_bytes src "image/png";
                       Part_from_text (EditReq.instruction req ++ NL ++ NO_CHANGE)])
               CFG_IMG ;;
     png <- lift (extract_img resp (EditReq.imageModel req)) ;;
     ret {| resp_image := bytes_to_b64 png |}).

Definition merge_instr (req : MergeReq.t) : string :=
  let extra :=
    if Py.truthy (Py.strip (MergeReq.hint req))
    then NL ++ "Extra blending note: " ++ MergeReq.hint req
    else EmptyString in
  "Composite these two layers into one cohesive image:" ++ NL
  ++ "  • Image 1 = FOREGROUND (top layer): " ++ MergeReq.fgName req ++ NL
  ++ "  • Image 2 = BACKGROUND (bottom layer): " ++ MergeReq.bgName req ++ NL ++ NL
  ++ "Place foreground elements naturally in front of the background. "
  ++ "Match lighting, blend edges seamlessly. One unified final image. "
  ++ "No new objects added. No watermarks." ++ extra.

Definition merge (req : MergeReq.t) : Route ImageResp :=
  or_http 500
    (c <- genai_Client (MergeReq.apiKey req) ;;
     let instr := merge_instr req in
     fg <- lift (b64_to_bytes (MergeReq.fgImage req)) ;;
     bg <- lift (b64_to_bytes (MergeReq.bgImage req)) ;;
     resp <- generate_content c (MergeReq.imageModel req)
               (Parts [Part_from_bytes fg "image/png";
                       Part_from_bytes bg "image/png";
                       Part_from_text instr])
               CFG_IMG ;;
     png <- lift (extract_img resp (MergeReq.imageModel req)) ;;
     ret {| resp_image := bytes_to_b64 png |}).

Definition improve_config : GenerateContentConfig :=
  {| response_modalities := None; temperature := Some 35%N; max_output_tokens := None |}.

Definition improve (req : ImproveReq.t) : Route TextResp :=
  or_http 500
    (c <- genai_Client (ImproveReq.apiKey req) ;;
     resp <- generate_content c (ImproveReq.textModel req)
               (Text ("Improve this image editing/generation prompt for target '"
                      ++ ImproveReq.target req ++ "'. "
                      ++ "Keep the intent, make it more specific and visually descriptive. "
                      ++ "Output ONLY the improved prompt text, nothing else." ++ NL ++ NL
                      ++ "PROMPT: " ++ ImproveReq.text req))
               improve_config ;;
     ret {| resp_text := Py.strip (response_text resp) |}).

Definition decompose (req : DecomposeReq.t) : Route dict :=
  or_http 500
    (c <- genai_Client (DecomposeReq.apiKey req) ;;
     decompose_sync c (DecomposeReq.textModel req) (DecomposeReq.mainPrompt req)).

(* ------------------------------------------------------------------ *)
(** ** Notions used to state the properties *)

(** Every part of a response, candidates and their parts in order. *)
Definition all_parts (resp : Response) : list Part :=
  flat_map candidate_parts (response_candidates resp).

(** No part carries inline data, neither bytes nor text. *)
Definition no_inline_data (resp : Response) : Prop :=
  Forall (fun p => part_data p = DataOther) (all_parts resp).

(** The message of [extract_img] when it finds no image. *)
Definition no_image_message (resp : Response) (model : string) : string :=
  "No image in response from [" ++ model ++ "]. Got: "
  ++ Py.slice_to 300 (response_text resp).

(** A field as a template shows it: its default phrase when it is empty. *)
Definition or_default (field phrase : string) : string :=
  if String.eqb field EmptyString then phrase else field.

(** The templates of the four kinds, with their default phrases. *)
Definition object_template (main obj lt mood : string) : string :=
  "Scene: " ++ main ++ NL ++ "Mood: " ++ or_default mood "neutral" ++ NL
  ++ "Generate ONLY the isolated main subject/object." ++ NL
  ++ "Object: " ++ or_default obj "infer from scene" ++ NL
  ++ "Lighting: " ++ or_default lt "neutral studio" ++ NL
  ++ CHESS_BG ++ NL ++ STYLE_GUARD.




(** The one call a generate-layer request makes, for a given instruction. *)
Definition layer_call (req : GenLayerReq.t) (prompt : string) : Event :=
  GenerateContent {| api_key := GenLayerReq.apiKey req |} (GenLayerReq.imageModel req)
    (Text prompt) CFG_IMG.

(** A decomposition: the four attributes under their keys. *)
Definition dict4 (o b l m : string) : dict :=
  [("object", o); ("background", b); ("light", l); ("mood", m)].

(** The text of a reply does not parse as the breakdown: [json.loads]
    raises, or what it returns is not a [dict]. *)
Definition unparseable (txt : string) : Prop :=
  match json_loads builtins txt with
  | inl _ => True
  | inr (JObject _) => False
  | inr _ => True
  end.

(** The decomposition call of a generate-all request. *)
Definition decomposition_call (req : GenAllReq.t) : Event :=
  GenerateContent {| api_key := GenAllReq.apiKey req |} (GenAllReq.textModel req)
    (decompose_contents (GenAllReq.mainPrompt req)) decompose_config.

(** The call that asks for the layer of a kind, from given attributes. *)
Definition all_layer_call (req : GenAllReq.t) (o b l m kind : string) : Event :=
  GenerateContent {| api_key := GenAllReq.apiKey req |} (GenAllReq.imageModel req)
    (Text (layer_prompt kind (GenAllReq.mainPrompt req) o b l m)) CFG_IMG.

(** The answer of the service to a call made after the calls of [h]. *)
Definition answer (h : History) (ev : Event) : result Response :=
  match ev with
  | GenerateContent c model contents config =>
      models_generate_content remote h c model contents config
  | ListModels _ => inl EmptyString
  end.

(** What a layer comes to, from the answer to its call: the data URI of
    the image, or the exception. *)
Definition layer_image (model : string) (a : result Response) : result string :=
  match a with
  | inl e => inl e
  | inr resp =>
      match extract_img resp model with
      | inl e => inl e
      | inr png => inr (bytes_to_b64 png)
      end
  end.

(** The outcomes of a list of calls made one after the other from [h]. *)
Fixpoint outcomes (model : string) (calls : list Event) (h : History)
    : list (result string) :=
  match calls with
  | [] => []
  | ev :: rest => layer_image model (answer h ev) :: outcomes model rest (h ++ [ev])%list
  end.

(** The number of outcomes up to the first failure, that one included. *)
Fixpoint attempted (outs : list (result string)) : nat :=
  match outs with
  | [] => 0
  | inl _ :: _ => 1
  | inr _ :: rest => S (attempted rest)
  end.

Definition succeeded (out : result string) : Prop :=
  match out with
  | inl _ => False
  | inr _ => True
  end.

(** The images under their kinds when every outcome is an image, the first
    exception otherwise. *)
Fixpoint collect (kinds : list string) (outs : list (result string)) (results : dict)
    : result dict :=
  match kinds, outs with
  | kind :: ks, inr img :: os => collect ks os (setitem results kind img)
  | _ :: _, inl e :: _ => inl e
  | _, _ => inr results
  end.

(** No character of the alphabet is a comma. *)
Definition table_no_comma (n : N) : bool :=
  negb (Ascii.eqb (Base64.b2a n) ",").

(** A text made of one-byte whitespace only. *)
Definition blank (s : string) : Prop :=
  Forall (fun c => Py.space1 c = true) (list_ascii_of_string s).

(** The instruction of a merge request that gives no blending hint. *)
Definition merge_base (fgName bgName : string) : string :=
  "Composite these two layers into one cohesive image:" ++ NL
  ++ "  • Image 1 = FOREGROUND (top layer): " ++ fgName ++ NL
  ++ "  • Image 2 = BACKGROUND (bottom layer): " ++ bgName ++ NL ++ NL
  ++ "Place foreground elements naturally in front of the background. "
  ++ "Match lighting, blend edges seamlessly. One unified final image. "
  ++ "No new objects added. No watermarks.".

(** A generate-all request with other light and mood sub-prompts. *)
Definition with_light_mood (req : GenAllReq.t) (lt mood : string) : GenAllReq.t :=
  {| GenAllReq.apiKey := GenAllReq.apiKey req;
     GenAllReq.imageModel := GenAllReq.imageModel req;
     GenAllReq.textModel := GenAllReq.textModel req;
     GenAllReq.mainPrompt := GenAllReq.mainPrompt req;
     GenAllReq.objectPrompt := GenAllReq.objectPrompt req;
     GenAllReq.backgroundPrompt := GenAllReq.backgroundPrompt req;
     GenAllReq.lightPrompt := lt;
     GenAllReq.moodPrompt := mood |}.

(** The text begins with three backquotes. *)
Definition starts_fence (s : string) : bool :=
  match s with
  | EmptyString => false
  | String a r =>
      Ascii.eqb a "`"
      && match r with
         | EmptyString => false
         | String b r2 =>
             Ascii.eqb b "`"
             && match r2 with
                | EmptyString => false
                | String c _ => Ascii.eqb c "`"
                end
         end
  end.

(** The text after its first three characters. *)
Definition after_fence (s : string) : string :=
  match s with
  | String _ (String _ (String _ r)) => r
  | _ => EmptyString
  end.

(** Three backquotes in a row occur somewhere in the text. *)
Fixpoint has_fence (s : string) : bool :=
  match s with
  | EmptyString => false
  | String c r => starts_fence s || has_fence r
  end.

(** The number of backquotes the text begins with. *)
Fixpoint lead (s : string) : nat :=
  match s with
  | EmptyString => 0
  | String c r => if Ascii.eqb c "`" then S (lead r) else 0
  end.

(** A text made of whitespace only, as [str.strip] sees whitespace. *)
Inductive whitespace : string -> Prop :=
| whitespace_nil : whitespace ""
| whitespace_one (a : ascii) (s : string) :
    Py.space1 a = true -> whitespace s -> whitespace (String a s)
| whitespace_two (a b : ascii) (s : string) :
    Py.space2 a b = true -> whitespace s -> whitespace (String a (String b s))
| whitespace_three (a b c : ascii) (s : string) :
    Py.space3 a b c = true -> whitespace s ->
    whitespace (String a (String b (String c s))).

(** The text begins, or ends, with a whitespace character. *)
Definition begins_with_space (s : string) : Prop :=
  (exists a r, s = String a r /\ Py.space1 a = true)
  \/ (exists a b r, s = String a (String b r) /\ Py.space2 a b = true)
  \/ (exists a b c r, s = String a (String b (String c r)) /\ Py.space3 a b c = true).

Definition ends_with_space (s : string) : Prop :=
  (exists r a, s = r ++ String a "" /\ Py.space1 a = true)
  \/ (exists r a b, s = r ++ String a (String b "") /\ Py.space2 a b = true)
  \/ (exists r a b c,
        s = r ++ String a (String b (String c "")) /\ Py.space3 a b c = true).

(** What [drop_space] drops and what it leaves: the text dropped is made of
    whitespace only (read in the direction the bytes were written), and
    what is left does not begin with a whitespace of one, two or three
    bytes. *)
Definition dropped (backwards : bool) (s pre : string) : Prop :=
  s = pre ++ Py.drop_space backwards s
  /\ whitespace (if backwards then Py.reverse pre else pre)
  /\ (forall a t, Py.drop_space backwards s = String a t -> Py.space1 a = false)
  /\ (forall a b t,
        Py.drop_space backwards s = String a (String b t) ->
        (if backwards then Py.space2 b a else Py.space2 a b) = false)
  /\ (forall a b c t,
        Py.drop_space backwards s = String a (String b (String c t)) ->
        (if backwards then Py.space3 c b a else Py.space3 a b c) = false).

(** The one call of an improve request. *)
Definition improve_call (req : ImproveReq.t) : Event :=
  GenerateContent {| api_key := ImproveReq.apiKey req |} (ImproveReq.textModel req)
    (Text ("Improve this image editing/generation prompt for target '"
           ++ ImproveReq.target req ++ "'. "
           ++ "Keep the intent, make it more specific and visually descriptive. "
           ++ "Output ONLY the improved prompt text, nothing else." ++ NL ++ NL
           ++ "PROMPT: " ++ ImproveReq.text req))
    improve_config.

(* ================================================================== *)
(** * Properties *)

Import Base64.

(** ** The primitives on small inputs *)

Example split_last_model : Py.split_last "/" "models/gemini-2.0-flash" = "gemini-2.0-flash".
Proof. reflexivity. Qed.

Example strip_spaces : Py.strip ("  a b " ++ NL) = "a b".
Proof. reflexivity. Qed.

Example fences_removed :
  Py.strip (Py.replace_fence (Py.re_sub_fence false ("```json" ++ NL ++ "{}" ++ NL ++ "```")))
  = "{}".
Proof. reflexivity. Qed.

Example slice_counts_characters : Py.slice_to 2 "a—bc" = "a—".
Proof. reflexivity. Qed.

Example b64encode_three : b64encode [x4d; x61; x6e] = "TWFu".
Proof. reflexivity. Qed.

Example b64encode_two : b64encode [x4d; x61] = "TWE=".
Proof. reflexivity. Qed.

Example b64encode_one : b64encode [x4d] = "TQ==".
Proof. reflexivity. Qed.

Example b64decode_skips_other_characters :
  b64decode ("TW" ++ NL ++ "F u") = inr [x4d; x61; x6e].
Proof. reflexivity. Qed.

Example b64decode_incorrect_padding : b64decode "TQ" = inl "Incorrect padding".
Proof. reflexivity. Qed.

Example b64decode_one_too_many :
  b64decode "TWFuT"
  = inl "Invalid base64-encoded string: number of data characters (5) cannot be 1 more than a multiple of 4".
Proof. reflexivity. Qed.

Example b64_to_bytes_data_uri : b64_to_bytes "data:image/png;base64,TQ==" = inr [x4d].
Proof. reflexivity. Qed.

(** ** The base64 codec *)

Lemma below_complete (f : N -> bool) (k : nat) :
  forallb f (below k) = true -> forall n, (n < N.of_nat k)%N -> f n = true.
Proof.
  induction k as [|k IH]; intros Hall n Hn.
  - lia.
  - simpl in Hall. apply andb_true_iff in Hall as [Hk Hrest].
    destruct (N.eq_dec n (N.of_nat k)) as [->|Hne]; [exact Hk|].
    apply IH; [exact Hrest|lia].
Qed.

Lemma table_checked : forallb table_ok (below 64) = true.
Proof. vm_compute. reflexivity. Qed.

Lemma bits_checked :
  forallb (fun x => forallb (bits_ok x) (below 256)) (below 256) = true.
Proof. vm_compute. reflexivity. Qed.

Lemma table_facts (n : N) :
  (n < 64)%N ->
  a2b (b2a n) = Some n /\ Ascii.eqb (b2a n) pad = false /\ (N_of_ascii (b2a n) < 128)%N.
Proof.
  intros Hn. pose proof (below_complete _ 64 table_checked n Hn) as H.
  unfold table_ok in H.
  apply andb_true_iff in H as [H H3]. apply andb_true_iff in H as [H1 H2].
  destruct (a2b (b2a n)) as [m|]; [|discriminate].
  apply N.eqb_eq in H1. subst m.
  apply negb_true_iff in H2. apply N.ltb_lt in H3. auto.
Qed.

Lemma bits_facts (x y : N) :
  (x < 256)%N -> (y < 256)%N -> bits_ok x y = true.
Proof.
  intros Hx Hy.
  pose proof (below_complete _ 256 bits_checked x Hx) as H. simpl in H.
  exact (below_complete _ 256 H y Hy).
Qed.

Lemma byte_below (b : byte) : (Byte.to_N b < 256)%N.
Proof. pose proof (Byte.to_N_bounded b). lia. Qed.

Lemma to_uchar_byte (n : N) (b : byte) : (n mod 256)%N = Byte.to_N b -> to_uchar n = b.
Proof. intros H. unfold to_uchar. rewrite H, Byte.of_to_N. reflexivity. Qed.

Lemma list_ind3 {A} (P : list A -> Prop) :
  P [] -> (forall x, P [x]) -> (forall x y, P [x; y]) ->
  (forall x y z l, P l -> P (x :: y :: z :: l)) ->
  forall l, P l.
Proof.
  intros H0 H1 H2 H3. fix IH 1.
  intros [|x [|y [|z l]]]; [apply H0 | apply H1 | apply H2 | apply H3, IH].
Qed.

(** One step of the decoder on a character of the alphabet. *)
Lemma a2b_base64_data (n : N) (r : string) (q : nat) (lc p w : N) :
  (n < 64)%N ->
  a2b_base64 (String (b2a n) r) q lc p w =
  match q with
  | 0 => a2b_base64 r 1 n 0 w
  | 1 => emit (to_uchar (N.lor (N.shiftl lc 2) (N.shiftr n 4)))
              (a2b_base64 r 2 (N.land n 15) 0 (w + 1))
  | 2 => emit (to_uchar (N.lor (N.shiftl lc 4) (N.shiftr n 2)))
              (a2b_base64 r 3 (N.land n 3) 0 (w + 1))
  | _ => emit (to_uchar (N.lor (N.shiftl lc 6) n)) (a2b_base64 r 0 0 0 (w + 1))
  end.
Proof.
  intros Hn. destruct (table_facts n Hn) as (Ha & Hp & _).
  cbn [a2b_base64]. rewrite Hp, Ha. reflexivity.
Qed.

Ltac bits x y :=
  let H := fresh "B" in
  pose proof (bits_facts (Byte.to_N x) (Byte.to_N y) (byte_below x) (byte_below y)) as H;
  unfold bits_ok in H;
  repeat (apply andb_true_iff in H; let H' := fresh "B" in destruct H as [H H']);
  repeat match goal with
         | E : (_ <? _)%N = true |- _ => apply N.ltb_lt in E
         | E : (_ =? _)%N = true |- _ => apply N.eqb_eq in E
         end.

(** The first two characters of a group give back its first byte and leave
    the decoder at position 2. *)
Lemma a2b_base64_first (x y : byte) (r : string) (lc p w : N) :
  a2b_base64 (String (b2a (sextet1 (Byte.to_N x)))
                (String (b2a (sextet2 (Byte.to_N x) (Byte.to_N y))) r)) 0 lc p w =
  emit x (a2b_base64 r 2 (N.shiftr (Byte.to_N y) 4) 0 (w + 1)).
Proof.
  bits x y.
  rewrite !a2b_base64_data by assumption.
  f_equal; [apply to_uchar_byte; assumption | congruence].
Qed.

Lemma a2b_base64_second (y z : byte) (r : string) (w : N) :
  a2b_base64 (String (b2a (sextet3 (Byte.to_N y) (Byte.to_N z))) r)
             2 (N.shiftr (Byte.to_N y) 4) 0 w =
  emit y (a2b_base64 r 3 (N.shiftr (Byte.to_N z) 6) 0 (w + 1)).
Proof.
  bits y z.
  rewrite a2b_base64_data by assumption.
  f_equal; [apply to_uchar_byte; assumption | congruence].
Qed.

Lemma a2b_base64_third (z : byte) (r : string) (w : N) :
  a2b_base64 (String (b2a (sextet4 (Byte.to_N z))) r) 3 (N.shiftr (Byte.to_N z) 6) 0 w =
  emit z (a2b_base64 r 0 0 0 (w + 1)).
Proof.
  bits z z.
  rewrite a2b_base64_data by assumption.
  f_equal. apply to_uchar_byte; assumption.
Qed.

(** The decoder undoes the encoder, from the start of a group. *)
Lemma a2b_base64_b64encode (b : bytes) :
  forall lc p w, a2b_base64 (b64encode b) 0 lc p w = inr b.
Proof.
  induction b as [|x|x y|x y z l IH] using list_ind3; intros lc p w.
  - reflexivity.
  - cbn [b64encode]. change 0%N with (Byte.to_N x00) at 1.
    rewrite a2b_base64_first. reflexivity.
  - cbn [b64encode]. change 0%N with (Byte.to_N x00) at 1.
    rewrite a2b_base64_first, a2b_base64_second. reflexivity.
  - cbn [b64encode].
    rewrite a2b_base64_first, a2b_base64_second, a2b_base64_third, IH.
    reflexivity.
Qed.

Lemma is_ascii_cons (c : ascii) (r : string) :
  is_ascii (String c r) = (N_of_ascii c <? 128)%N && is_ascii r.
Proof. reflexivity. Qed.

Lemma is_ascii_b2a (n : N) (r : string) :
  (n < 64)%N -> is_ascii (String (b2a n) r) = is_ascii r.
Proof.
  intros Hn. destruct (table_facts n Hn) as (_ & _ & H).
  rewrite is_ascii_cons. apply N.ltb_lt in H. rewrite H. reflexivity.
Qed.

Lemma is_ascii_b64encode (b : bytes) : is_ascii (b64encode b) = true.
Proof.
  induction b as [|x|x y|x y z l IH] using list_ind3; cbn [b64encode].
  - reflexivity.
  - bits x x00. rewrite !is_ascii_b2a by assumption. reflexivity.
  - bits x y. bits y x00. rewrite !is_ascii_b2a by assumption. reflexivity.
  - bits x y. bits y z. bits z z. rewrite !is_ascii_b2a by assumption. exact IH.
Qed.

Lemma b64decode_b64encode (b : bytes) : b64decode (b64encode b) = inr b.
Proof.
  unfold b64decode. rewrite is_ascii_b64encode. apply a2b_base64_b64encode.
Qed.

(** ** The data-URI prefix *)

Lemma contains_char_app (ch : ascii) (pre rest : string) :
  Py.contains_char ch (pre ++ String ch rest) = true.
Proof.
  induction pre as [|c pre IH]; simpl.
  - rewrite Ascii.eqb_refl. reflexivity.
  - destruct (Ascii.eqb c ch); [reflexivity|exact IH].
Qed.

Lemma split_once_app (ch : ascii) (pre rest : string) :
  Py.contains_char ch pre = false ->
  Py.split_once ch (pre ++ String ch rest) = Some (pre, rest).
Proof.
  induction pre as [|c pre IH]; simpl; intros H.
  - rewrite Ascii.eqb_refl. reflexivity.
  - destruct (Ascii.eqb c ch); [discriminate|].
    rewrite (IH H). reflexivity.
Qed.

Lemma b64_to_bytes_prefixed (pre rest : string) :
  Py.contains_char "," pre = false ->
  b64_to_bytes (pre ++ String "," rest) = b64decode rest.
Proof.
  intros H. unfold b64_to_bytes.
  rewrite contains_char_app, (split_once_app _ _ _ H). reflexivity.
Qed.

(** C6. Decoding what the encoder produced gives the bytes back; the
    encoder puts exactly [data:image/png;base64,] in front of the base64
    text; the decoder drops everything up to and including the first comma
    when there is one, and decodes a text without a comma as it is. *)
Theorem b64_roundtrip :
  (forall b : bytes, b64_to_bytes (bytes_to_b64 b) = inr b)
  /\ (forall b : bytes, bytes_to_b64 b = "data:image/png;base64," ++ b64encode b)
  /\ (forall pre rest : string,
        Py.contains_char "," pre = false ->
        b64_to_bytes (pre ++ String "," rest) = b64decode rest)
  /\ (forall s : string,
        Py.contains_char "," s = false -> b64_to_bytes s = b64decode s).
Proof.
  split; [|split; [|split]].
  - intros b. unfold bytes_to_b64.
    change ("data:image/png;base64," ++ b64encode b)
      with ("data:image/png;base64" ++ String "," (b64encode b)).
    rewrite b64_to_bytes_prefixed by reflexivity.
    apply b64decode_b64encode.
  - reflexivity.
  - exact b64_to_bytes_prefixed.
  - intros s H. unfold b64_to_bytes. rewrite H. reflexivity.
Qed.

(** ** Building the client *)

(** A route whose [try] begins with [genai.Client(...)]: the exception of
    the constructor is the answer, before any call; otherwise the route
    goes on with the client of the key. *)
Lemma or_http_client {A} (code : N) (key : string) (body : Client -> M A) (h : History) :
  or_http code (bind (genai_Client key) body) h =
  match client_error remote key with
  | Some e => ([], inl {| status_code := code; detail := e |})
  | None => or_http code (body {| api_key := key |}) h
  end.
Proof.
  unfold or_http, bind, genai_Client, lift.
  destruct (client_error remote key) as [e|]; [reflexivity|].
  rewrite List.app_nil_r. destruct (body _ h) as [evs [e|a]]; reflexivity.
Qed.

(** ** Slicing *)

Lemma slice_to_prefix (n : nat) (s : string) : String.prefix (Py.slice_to n s) s = true.
Proof.
  revert n. induction s as [|c r IH]; intros n; simpl.
  - reflexivity.
  - destruct (Py.is_continuation c); [|destruct n as [|n]]; simpl;
      try reflexivity; destruct (ascii_dec c c); try contradiction; apply IH.
Qed.

Lemma slice_to_count (n : nat) (s : string) : Py.char_count (Py.slice_to n s) <= n.
Proof.
  revert n. induction s as [|c r IH]; intros n; simpl.
  - lia.
  - destruct (Py.is_continuation c) eqn:E.
    + simpl. rewrite E. apply IH.
    + destruct n as [|n]; simpl; [lia|]. rewrite E. specialize (IH n). lia.
Qed.

Lemma slice_to_all (n : nat) (s : string) : Py.char_count s <= n -> Py.slice_to n s = s.
Proof.
  revert n. induction s as [|c r IH]; intros n; simpl.
  - reflexivity.
  - destruct (Py.is_continuation c); intros H.
    + f_equal. apply IH, H.
    + destruct n as [|n]; [lia|]. f_equal. apply IH. lia.
Qed.

Lemma slice_to_count_eq (n : nat) (s : string) :
  Py.char_count (Py.slice_to n s) = Nat.min n (Py.char_count s).
Proof.
  revert n. induction s as [|c r IH]; intros n; simpl.
  - rewrite Nat.min_0_r. reflexivity.
  - destruct (Py.is_continuation c) eqn:E.
    + simpl. rewrite E. apply IH.
    + destruct n as [|n]; simpl; [reflexivity|]. rewrite E, IH. reflexivity.
Qed.

(** The slice ends where a character ends. *)
Lemma slice_to_rest (n : nat) (s : string) :
  exists rest,
    s = Py.slice_to n s ++ rest
    /\ forall c r, rest = String c r -> Py.is_continuation c = false.
Proof.
  revert n. induction s as [|c r IH]; intros n; simpl.
  - exists "". split; [reflexivity|discriminate].
  - destruct (Py.is_continuation c) eqn:E.
    + destruct (IH n) as (rest & Hr & Hc). exists rest.
      split; [cbn [append]; f_equal; exact Hr|exact Hc].
    + destruct n as [|n].
      * exists (String c r). split; [reflexivity|].
        intros c' r' H. injection H as <- _. exact E.
      * destruct (IH n) as (rest & Hr & Hc). exists rest.
        split; [cbn [append]; f_equal; exact Hr|exact Hc].
Qed.

(** On a text of one-byte characters the slice is the first [n] bytes. *)
Lemma slice_to_ascii (n : nat) (s : string) :
  is_ascii s = true -> Py.slice_to n s = substring 0 n s.
Proof.
  revert n. induction s as [|c r IH]; intros n Ha.
  - destruct n; reflexivity.
  - rewrite is_ascii_cons in Ha. apply andb_true_iff in Ha as [Hc Hr].
    assert (E : Py.is_continuation c = false).
    { unfold Py.is_continuation. apply N.ltb_lt in Hc.
      destruct (N.leb_spec 128 (N_of_ascii c)); [lia|reflexivity]. }
    cbn [Py.slice_to]. rewrite E. destruct n as [|n]; [reflexivity|].
    cbn [substring]. f_equal. apply IH, Hr.
Qed.

(** ** Extraction of the image *)

Lemma scan_parts_app (ps qs : list Part) :
  scan_parts (ps ++ qs) =
  match scan_parts ps with
  | Some r => Some r
  | None => scan_parts qs
  end.
Proof.
  induction ps as [|p ps IH]; simpl; [reflexivity|].
  destruct (part_data p); auto.
Qed.

Lemma scan_candidates_flat (cs : list Candidate) :
  scan_candidates cs = scan_parts (flat_map candidate_parts cs).
Proof.
  induction cs as [|c cs IH]; simpl; [reflexivity|].
  rewrite scan_parts_app, IH. reflexivity.
Qed.

Lemma scan_parts_none (ps : list Part) :
  Forall (fun p => part_data p = DataOther) ps -> scan_parts ps = None.
Proof.
  induction 1 as [|p ps Hp _ IH]; simpl; [reflexivity|].
  rewrite Hp. exact IH.
Qed.

Lemma extract_img_scan (resp : Response) (model : string) :
  extract_img resp model =
  match scan_parts (all_parts resp) with
  | Some r => r
  | None => inl (no_image_message resp model)
  end.
Proof.
  unfold extract_img, all_parts. rewrite scan_candidates_flat. reflexivity.
Qed.

(** C2. A response none of whose parts carries inline data makes
    [extract_img] raise; the message ends with the first 300 characters of
    the text of the response: a prefix of the text that stops at the end
    of a character, holds all of the text when it has 300 characters or
    fewer and exactly 300 characters otherwise. Once the client is built,
    the generate-layer route turns the exception into an HTTP 500 with
    that message. *)
Theorem extract_img_no_image (resp : Response) (model : string) :
  no_inline_data resp ->
  let txt := Py.slice_to 300 (response_text resp) in
  extract_img resp model
  = inl ("No image in response from [" ++ model ++ "]. Got: " ++ txt)
  /\ String.prefix txt (response_text resp) = true
  /\ Py.char_count txt <= 300
  /\ Py.char_count txt = Nat.min 300 (Py.char_count (response_text resp))
  /\ (exists rest : string,
        response_text resp = txt ++ rest
        /\ forall c r, rest = String c r -> Py.is_continuation c = false)
  /\ (Py.char_count (response_text resp) <= 300 -> txt = response_text resp)
  /\ (is_ascii (response_text resp) = true -> txt = substring 0 300 (response_text resp))
  /\ (forall (req : GenLayerReq.t) (h : History),
        client_error remote (GenLayerReq.apiKey req) = None ->
        models_generate_content remote h {| api_key := GenLayerReq.apiKey req |}
          (GenLayerReq.imageModel req) (Text (gen_layer_prompt req)) CFG_IMG = inr resp ->
        snd (gen_layer req h)
        = inl {| status_code := 500;
                 detail := "No image in response from [" ++ GenLayerReq.imageModel req
                           ++ "]. Got: " ++ txt |}).
Proof.
  intros Hno txt.
  assert (Hx : forall m, extract_img resp m = inl (no_image_message resp m)).
  { intros m. rewrite extract_img_scan, (scan_parts_none _ Hno). reflexivity. }
  split; [apply Hx|].
  split; [apply slice_to_prefix|].
  split; [apply slice_to_count|].
  split; [apply slice_to_count_eq|].
  split; [apply slice_to_rest|].
  split; [apply slice_to_all|].
  split; [apply slice_to_ascii|].
  intros req h Hclient Hresp.
  unfold gen_layer. rewrite or_http_client, Hclient.
  unfold or_http, bind, generate_content, lift, ret.
  cbn zeta. rewrite Hresp, Hx. reflexivity.
Qed.

(** C7. [extract_img] answers from the first part that carries inline
    data, whatever follows it: bytes are opened as an image, text is
    base64-decoded first; the image is converted to RGBA and saved as
    PNG. *)
Theorem extract_img_first_image (resp : Response) (model : string)
    (before after : list Part) (p : Part) :
  all_parts resp = (before ++ p :: after)%list ->
  Forall (fun q => part_data q = DataOther) before ->
  let png := fun raw : bytes =>
    match Image_open pil raw with
    | inl e => inl e
    | inr img =>
        match Image_convert pil img "RGBA" with
        | inl e => inl e
        | inr rgba => Image_save pil rgba "PNG"
        end
    end in
  (forall d : bytes, part_data p = DataBytes d -> extract_img resp model = png d)
  /\ (forall s : string, part_data p = DataStr s ->
        extract_img resp model
        = match b64decode s with
          | inl e => inl e
          | inr raw => png raw
          end).
Proof.
  intros Hparts Hbefore png.
  assert (Hscan : scan_parts (all_parts resp) = scan_parts (p :: after)).
  { rewrite Hparts, scan_parts_app, (scan_parts_none _ Hbefore). reflexivity. }
  split; intros d Hd; rewrite extract_img_scan, Hscan; simpl; rewrite Hd; reflexivity.
Qed.

(** ** Prompts of the generate-layer route *)

Lemma or_default_or (field phrase : string) : Py.or_ field phrase = or_default field phrase.
Proof. destruct field; reflexivity. Qed.

Lemma length_app (a b : string) : String.length (a ++ b) = String.length a + String.length b.
Proof. induction a as [|c a IH]; simpl; [reflexivity|rewrite IH; reflexivity]. Qed.



(** A generate-layer request builds the client, then makes one call with
    the instruction text of the request, and answers from what the service
    returns. *)
Lemma gen_layer_run (req : GenLayerReq.t) (h : History) :
  gen_layer req h =
  match client_error remote (GenLayerReq.apiKey req) with
  | Some e => ([], inl {| status_code := 500; detail := e |})
  | None =>
      ([layer_call req (gen_layer_prompt req)],
       match models_generate_content remote h {| api_key := GenLayerReq.apiKey req |}
               (GenLayerReq.imageModel req) (Text (gen_layer_prompt req)) CFG_IMG with
       | inl e => inl {| status_code := 500; detail := e |}
       | inr resp =>
           match extract_img resp (GenLayerReq.imageModel req) with
           | inl e => inl {| status_code := 500; detail := e |}
           | inr png => inr {| resp_image := bytes_to_b64 png |}
           end
       end)
  end.
Proof.
  unfold gen_layer. rewrite or_http_client.
  destruct (client_error remote _) as [e|]; [reflexivity|].
  unfold or_http, bind, generate_content, lift, ret, layer_call. cbn zeta.
  destruct (models_generate_content remote h _ _ _ _) as [e|resp]; [reflexivity|].
  destruct (extract_img resp _) as [e|png]; reflexivity.
Qed.

(** What a generate-layer request sends: nothing when the client cannot be
    built, one call with its instruction text otherwise. *)
Lemma gen_layer_sends (req : GenLayerReq.t) (h : History) (prompt : string) :
  gen_layer_prompt req = prompt ->
  (forall ev, In ev (fst (gen_layer req h)) -> ev = layer_call req prompt)
  /\ (client_error remote (GenLayerReq.apiKey req) = None ->
      fst (gen_layer req h) = [layer_call req prompt])
  /\ (forall e, client_error remote (GenLayerReq.apiKey req) = Some e ->
                gen_layer req h = ([], inl {| status_code := 500; detail := e |})).
Proof.
  intros <-. rewrite gen_layer_run.
  destruct (client_error remote _) as [e|]; repeat split.
  - intros ev [].
  - discriminate.
  - intros e' H. injection H as <-. reflexivity.
  - intros ev [<-|[]]. reflexivity.
  - discriminate.
Qed.

Lemma app_assoc (a b c : string) : (a ++ b) ++ c = a ++ (b ++ c).
Proof. induction a as [|x a IH]; simpl; [reflexivity|rewrite IH; reflexivity]. Qed.

Ltac template :=
  unfold layer_prompt; cbn [String.eqb Ascii.eqb Bool.eqb];
  rewrite ?or_default_or, ?app_assoc; reflexivity.

Lemma layer_prompt_object (main obj bg lt mood : string) :
  layer_prompt "object" main obj bg lt mood = object_template main obj lt mood.
Proof. template. Qed.




Lemma layer_prompt_other (kind main obj bg lt mood : string) :
  kind <> "object" -> kind <> "light" -> kind <> "background" -> kind <> "combo" ->
  layer_prompt kind main obj bg lt mood = main.
Proof.
  intros H1 H2 H3 H4. unfold layer_prompt.
  apply String.eqb_neq in H1, H2, H3, H4. rewrite H1, H2, H3, H4. reflexivity.
Qed.

(** C4. With [layerType] equal to [custom] every call the request makes
    carries [customPrompt] itself as its text; the request makes exactly
    that one call once the client is built, and none when the constructor
    of the client raises. *)
Theorem gen_layer_custom (req : GenLayerReq.t) (h : History) :
  GenLayerReq.layerType req = "custom" ->
  let call :=
    GenerateContent {| api_key := GenLayerReq.apiKey req |} (GenLayerReq.imageModel req)
      (Text (GenLayerReq.customPrompt req)) CFG_IMG in
  (forall ev, In ev (fst (gen_layer req h)) -> ev = call)
  /\ (client_error remote (GenLayerReq.apiKey req) = None ->
      fst (gen_layer req h) = [call])
  /\ (forall e, client_error remote (GenLayerReq.apiKey req) = Some e ->
                gen_layer req h = ([], inl {| status_code := 500; detail := e |})).
Proof.
  intros Hk call. apply gen_layer_sends.
  unfold gen_layer_prompt. rewrite Hk. reflexivity.
Qed.

(** C10. With a [layerType] outside the five kinds the prompt builder
    falls through its branches: every call the request makes carries
    [mainPrompt] itself as its text. Once the client is built the request
    makes that one call and is answered from the reply of the service like
    any other; the kind alone never makes it fail. *)
Theorem gen_layer_unknown_kind (req : GenLayerReq.t) (h : History) :
  ~ In (GenLayerReq.layerType req) ["object"; "background"; "light"; "combo"; "custom"] ->
  let call :=
    GenerateContent {| api_key := GenLayerReq.apiKey req |} (GenLayerReq.imageModel req)
      (Text (GenLayerReq.mainPrompt req)) CFG_IMG in
  layer_prompt (GenLayerReq.layerType req) (GenLayerReq.mainPrompt req)
    (GenLayerReq.objectPrompt req) (GenLayerReq.backgroundPrompt req)
    (GenLayerReq.lightPrompt req) (GenLayerReq.moodPrompt req)
  = GenLayerReq.mainPrompt req
  /\ (forall ev, In ev (fst (gen_layer req h)) -> ev = call)
  /\ (client_error remote (GenLayerReq.apiKey req) = None ->
      fst (gen_layer req h) = [call]
      /\ snd (gen_layer req h)
         = match models_generate_content remote h
                   {| api_key := GenLayerReq.apiKey req |}
                   (GenLayerReq.imageModel req) (Text (GenLayerReq.mainPrompt req))
                   CFG_IMG with
           | inl e => inl {| status_code := 500; detail := e |}
           | inr resp =>
               match extract_img resp (GenLayerReq.imageModel req) with
               | inl e => inl {| status_code := 500; detail := e |}
               | inr png => inr {| resp_image := bytes_to_b64 png |}
               end
           end)
  /\ (forall e, client_error remote (GenLayerReq.apiKey req) = Some e ->
                gen_layer req h = ([], inl {| status_code := 500; detail := e |})).
Proof.
  intros Hk call. simpl in Hk.
  assert (Hp : layer_prompt (GenLayerReq.layerType req) (GenLayerReq.mainPrompt req)
                 (GenLayerReq.objectPrompt req) (GenLayerReq.backgroundPrompt req)
                 (GenLayerReq.lightPrompt req) (GenLayerReq.moodPrompt req)
               = GenLayerReq.mainPrompt req).
  { apply layer_prompt_other; intros E; apply Hk; rewrite E; tauto. }
  assert (Hg : gen_layer_prompt req = GenLayerReq.mainPrompt req).
  { unfold gen_layer_prompt.
    destruct (String.eqb_spec (GenLayerReq.layerType req) "custom") as [E|_];
      [exfalso; apply Hk; rewrite E; tauto | exact Hp]. }
  destruct (gen_layer_sends req h _ Hg) as (Hall & Hone & Hnone).
  split; [exact Hp|]. split; [exact Hall|]. split; [|exact Hnone].
  intros Hc. split; [exact (Hone Hc)|].
  rewrite gen_layer_run, Hc, Hg. reflexivity.
Qed.


(** The example of the claim: an empty [objectPrompt] in the object kind. *)
Example object_prompt_default (main lt mood : string) :
  layer_prompt "object" main "" "" lt mood
  = layer_prompt "object" main "infer from scene" "" lt mood.
Proof. reflexivity. Qed.

(** ** Decomposition *)

Lemma parse_decomposition_shape (txt : string) :
  exists o b l m, parse_decomposition txt = dict4 o b l m.
Proof.
  unfold parse_decomposition, empty_decomposition, dict4.
  destruct (json_loads builtins txt) as [e|j]; [eauto|].
  cbn [pick_keys].
  destruct (json_get j "object") as [e|vo]; [eauto|].
  destruct (json_get j "background") as [e|vb]; [eauto|].
  destruct (json_get j "light") as [e|vl]; [eauto|].
  destruct (json_get j "mood") as [e|vm]; eauto.
Qed.

Lemma parse_decomposition_unparseable (txt : string) :
  unparseable txt -> parse_decomposition txt = empty_decomposition.
Proof.
  unfold unparseable, parse_decomposition.
  destruct (json_loads builtins txt) as [e|j]; [reflexivity|].
  destruct j; intros H; try reflexivity. contradiction.
Qed.

(** C8. When the text of the reply, code fences removed, does not parse
    as the breakdown, [decompose_sync] returns the four attributes as
    empty strings and raises nothing, and so does the decompose route that
    built the client for it. *)
Theorem decompose_unparseable (req : DecomposeReq.t) (h : History) (resp : Response) :
  models_generate_content remote h {| api_key := DecomposeReq.apiKey req |}
    (DecomposeReq.textModel req) (decompose_contents (DecomposeReq.mainPrompt req))
    decompose_config = inr resp ->
  unparseable (clean_text resp) ->
  snd (decompose_sync {| api_key := DecomposeReq.apiKey req |}
         (DecomposeReq.textModel req) (DecomposeReq.mainPrompt req) h)
  = inr [("object", ""); ("background", ""); ("light", ""); ("mood", "")]
  /\ (client_error remote (DecomposeReq.apiKey req) = None ->
      snd (decompose req h)
      = inr [("object", ""); ("background", ""); ("light", ""); ("mood", "")]).
Proof.
  intros Hresp Hbad.
  assert (Hsync : snd (decompose_sync {| api_key := DecomposeReq.apiKey req |}
                         (DecomposeReq.textModel req) (DecomposeReq.mainPrompt req) h)
                  = inr [("object", ""); ("background", ""); ("light", ""); ("mood", "")]).
  { unfold decompose_sync, bind, generate_content, ret.
    rewrite Hresp. cbn. rewrite (parse_decomposition_unparseable _ Hbad). reflexivity. }
  split; [exact Hsync|].
  intros Hc. unfold decompose. rewrite or_http_client, Hc.
  unfold or_http.
  destruct (decompose_sync _ _ _ h) as [evs [e|d]]; cbn [snd] in *;
    [discriminate Hsync|]. injection Hsync as ->. reflexivity.
Qed.

(** ** The generate-all route *)

Lemma gen_all_layer_run (c : Client) (req : GenAllReq.t) (o b l m kind : string)
    (h : History) :
  c = {| api_key := GenAllReq.apiKey req |} ->
  gen_all_layer c req (dict4 o b l m) kind h =
  ([all_layer_call req o b l m kind],
   layer_image (GenAllReq.imageModel req) (answer h (all_layer_call req o b l m kind))).
Proof.
  intros ->. unfold gen_all_layer, bind, lift, generate_content, ret, all_layer_call,
    layer_image, answer. cbn. rewrite !List.app_nil_r.
  destruct (models_generate_content remote h _ _ _ _) as [e|resp]; [reflexivity|].
  destruct (extract_img resp _) as [e|png]; reflexivity.
Qed.

(** The loop asks for the layers one after the other and stops at the
    first that fails. *)
Lemma gen_all_loop_run (c : Client) (req : GenAllReq.t) (o b l m : string)
    (kinds : list string) :
  c = {| api_key := GenAllReq.apiKey req |} ->
  forall (results : dict) (h : History),
    let calls := map (all_layer_call req o b l m) kinds in
    let outs := outcomes (GenAllReq.imageModel req) calls h in
    gen_all_loop c req (dict4 o b l m) kinds results h
    = (firstn (attempted outs) calls, collect kinds outs results).
Proof.
  intros Hc. induction kinds as [|kind ks IH]; intros results h; [reflexivity|].
  cbn [gen_all_loop map outcomes]. unfold bind.
  rewrite (gen_all_layer_run c req o b l m kind h Hc).
  destruct (layer_image _ _) as [e|img]; [reflexivity|].
  rewrite IH. reflexivity.
Qed.

Lemma gen_all_dec_shape (c : Client) (req : GenAllReq.t) (h : History) :
  forall pre dec, gen_all_dec c req h = (pre, inr dec) ->
  exists o b l m, dec = dict4 o b l m.
Proof.
  intros pre dec. unfold gen_all_dec.
  destruct (_ && _).
  - unfold decompose_sync, bind, generate_content, ret.
    destruct (models_generate_content remote h _ _ _ _) as [e|resp]; [discriminate|].
    intros H. injection H as _ <-. apply parse_decomposition_shape.
  - unfold ret. intros H. injection H as _ <-. unfold dict4. eauto.
Qed.

Lemma gen_all_no_client (req : GenAllReq.t) (h : History) (e : Exc) :
  client_error remote (GenAllReq.apiKey req) = Some e ->
  gen_all req h = ([], inl {| status_code := 500; detail := e |}).
Proof. intros Hc. unfold gen_all. rewrite or_http_client, Hc. reflexivity. Qed.

Lemma gen_all_run (req : GenAllReq.t) (h : History) :
  client_error remote (GenAllReq.apiKey req) = None ->
  gen_all req h =
  match gen_all_dec {| api_key := GenAllReq.apiKey req |} req h with
  | (pre, inl e) => (pre, inl {| status_code := 500; detail := e |})
  | (pre, inr dec) =>
      match gen_all_loop {| api_key := GenAllReq.apiKey req |} req dec LAYER_KINDS []
              (h ++ pre)%list with
      | (evs, inl e) => ((pre ++ evs)%list, inl {| status_code := 500; detail := e |})
      | (evs, inr results) =>
          ((pre ++ evs)%list,
           inr {| resp_layers := results; resp_decomposed := dec |})
      end
  end.
Proof.
  intros Hc. unfold gen_all. rewrite or_http_client, Hc.
  unfold or_http, bind. cbn zeta.
  destruct (gen_all_dec _ req h) as [pre [e|dec]]; [reflexivity|].
  destruct (gen_all_loop _ req dec LAYER_KINDS [] _) as [evs [e|results]]; [reflexivity|].
  unfold ret. rewrite app_nil_r. reflexivity.
Qed.

Lemma gen_all_layers (req : GenAllReq.t) (h : History) (pre : list Event)
    (o b l m : string) :
  client_error remote (GenAllReq.apiKey req) = None ->
  gen_all_dec {| api_key := GenAllReq.apiKey req |} req h = (pre, inr (dict4 o b l m)) ->
  let calls := map (all_layer_call req o b l m) LAYER_KINDS in
  let outs := outcomes (GenAllReq.imageModel req) calls (h ++ pre)%list in
  gen_all req h =
  ((pre ++ firstn (attempted outs) calls)%list,
   match collect LAYER_KINDS outs [] with
   | inl e => inl {| status_code := 500; detail := e |}
   | inr results => inr {| resp_layers := results; resp_decomposed := dict4 o b l m |}
   end).
Proof.
  intros Hc Hdec calls outs. rewrite (gen_all_run req h Hc), Hdec.
  rewrite (gen_all_loop_run _ req o b l m LAYER_KINDS eq_refl).
  fold calls. fold outs.
  destruct (collect LAYER_KINDS outs []); reflexivity.
Qed.

Lemma gen_all_dec_supplied (c : Client) (req : GenAllReq.t) (h : History) :
  ~ (GenAllReq.objectPrompt req = "" /\ GenAllReq.backgroundPrompt req = "") ->
  gen_all_dec c req h
  = ([], inr (dict4 (GenAllReq.objectPrompt req) (GenAllReq.backgroundPrompt req)
                (GenAllReq.lightPrompt req) (GenAllReq.moodPrompt req))).
Proof.
  intros Hne. unfold gen_all_dec.
  destruct (GenAllReq.objectPrompt req) as [|x ox]; [|reflexivity].
  destruct (GenAllReq.backgroundPrompt req) as [|y oy]; [|reflexivity].
  exfalso. apply Hne. auto.
Qed.

Lemma gen_all_dec_asked (c : Client) (req : GenAllReq.t) (h : History) :
  GenAllReq.objectPrompt req = "" -> GenAllReq.backgroundPrompt req = "" ->
  c = {| api_key := GenAllReq.apiKey req |} ->
  exists r, gen_all_dec c req h = ([decomposition_call req], r).
Proof.
  intros Ho Hb ->. unfold gen_all_dec. rewrite Ho, Hb. cbn [Py.truthy negb andb].
  unfold decompose_sync, bind, generate_content, ret, decomposition_call.
  destruct (models_generate_content remote h _ _ _ _) as [e|resp]; eauto.
Qed.

Lemma In_firstn {A} (x : A) (n : nat) (l : list A) : In x (firstn n l) -> In x l.
Proof.
  intros H. rewrite <- (firstn_skipn n l). apply in_or_app. left. exact H.
Qed.

Lemma layer_call_not_decomposition (req : GenAllReq.t) (o b l m : string) (n : nat) :
  ~ In (decomposition_call req)
       (firstn n (map (all_layer_call req o b l m) LAYER_KINDS)).
Proof.
  intros Hin. apply In_firstn in Hin. apply in_map_iff in Hin as (kind & Heq & _).
  unfold all_layer_call, decomposition_call in Heq. discriminate Heq.
Qed.

(** C3. A decomposition call is made only when [objectPrompt] and
    [backgroundPrompt] are both empty, and once the client is built it is
    made exactly then, as the first call of the request. Otherwise the
    only calls are layer calls built from the four supplied values, and
    these values are the decomposition returned. When the constructor of
    the client raises, the request makes no call at all. *)
Theorem gen_all_decomposition_iff (req : GenAllReq.t) (h : History) :
  let obj := GenAllReq.objectPrompt req in
  let bg := GenAllReq.backgroundPrompt req in
  let lt := GenAllReq.lightPrompt req in
  let mood := GenAllReq.moodPrompt req in
  (In (decomposition_call req) (fst (gen_all req h)) -> obj = "" /\ bg = "")
  /\ (client_error remote (GenAllReq.apiKey req) = None ->
      (In (decomposition_call req) (fst (gen_all req h)) <-> obj = "" /\ bg = ""))
  /\ (client_error remote (GenAllReq.apiKey req) = None ->
      obj = "" /\ bg = "" ->
      hd_error (fst (gen_all req h)) = Some (decomposition_call req))
  /\ (~ (obj = "" /\ bg = "") ->
        (exists n : nat,
            fst (gen_all req h)
            = firstn n (map (all_layer_call req obj bg lt mood) LAYER_KINDS))
        /\ (forall body : GenAllResp,
              snd (gen_all req h) = inr body ->
              resp_decomposed body
              = [("object", obj); ("background", bg); ("light", lt); ("mood", mood)]))
  /\ (forall e : Exc,
        client_error remote (GenAllReq.apiKey req) = Some e ->
        gen_all req h = ([], inl {| status_code := 500; detail := e |})).
Proof.
  intros obj bg lt mood.
  destruct (client_error remote (GenAllReq.apiKey req)) as [e|] eqn:Hc.
  { rewrite (gen_all_no_client req h e Hc). cbn [fst snd].
    split; [intros []|]. split; [discriminate|]. split; [discriminate|].
    split; [|intros e' H; injection H as <-; reflexivity].
    intros _. split; [exists 0; reflexivity|discriminate]. }
  assert (Hyes : obj = "" /\ bg = "" ->
                 exists rest, fst (gen_all req h) = decomposition_call req :: rest).
  { intros [Ho Hb].
    destruct (gen_all_dec_asked {| api_key := GenAllReq.apiKey req |} req h Ho Hb eq_refl)
      as [r Hr].
    rewrite (gen_all_run req h Hc), Hr. destruct r as [e|dec]; [eexists; reflexivity|].
    destruct (gen_all_loop _ req dec LAYER_KINDS [] _) as [evs [e|results]];
      eexists; reflexivity. }
  assert (Hno : ~ (obj = "" /\ bg = "") ->
                gen_all req h
                = let calls := map (all_layer_call req obj bg lt mood) LAYER_KINDS in
                  let outs := outcomes (GenAllReq.imageModel req) calls (h ++ [])%list in
                  (([] ++ firstn (attempted outs) calls)%list,
                   match collect LAYER_KINDS outs [] with
                   | inl e => inl {| status_code := 500; detail := e |}
                   | inr results =>
                       inr {| resp_layers := results;
                              resp_decomposed := dict4 obj bg lt mood |}
                   end)).
  { intros Hne. apply (gen_all_layers req h [] _ _ _ _ Hc).
    apply gen_all_dec_supplied, Hne. }
  assert (Honly : In (decomposition_call req) (fst (gen_all req h)) ->
                  obj = "" /\ bg = "").
  { intros Hin.
    destruct (string_dec obj "") as [Ho|Ho], (string_dec bg "") as [Hb|Hb]; auto;
      exfalso; rewrite Hno in Hin by tauto;
      apply (layer_call_not_decomposition req obj bg lt mood _ Hin). }
  split; [exact Honly|]. split; [|split; [|split; [|discriminate]]].
  - intros _. split; [exact Honly|].
    intros Hboth. destruct (Hyes Hboth) as [rest ->]. left. reflexivity.
  - intros _ Hboth. destruct (Hyes Hboth) as [rest ->]. reflexivity.
  - intros Hne. rewrite (Hno Hne). cbn zeta. split.
    + eexists. reflexivity.
    + intros body. cbn [snd].
      destruct (collect LAYER_KINDS _ []); [discriminate|].
      intros H. injection H as <-. reflexivity.
Qed.

(** The loop result is the first failure. *)
Lemma collect_first_failure (outs : list (result string)) :
  forall (kinds : list string) (results : dict) (i : nat) (e : Exc),
    List.length kinds = List.length outs ->
    nth_error outs i = Some (inl e) ->
    (forall j, j < i -> exists img, nth_error outs j = Some (inr img)) ->
    collect kinds outs results = inl e /\ attempted outs = S i.
Proof.
  induction outs as [|o os IH]; intros kinds results i e Hlen Hi Hprev.
  - destruct i; discriminate Hi.
  - destruct kinds as [|kind ks]; [discriminate Hlen|].
    destruct i as [|i].
    + injection Hi as ->. split; reflexivity.
    + destruct (Hprev 0) as [img Himg]; [lia|]. injection Himg as ->.
      simpl. destruct (IH ks (setitem results kind img) i e) as [Hc Ha].
      * simpl in Hlen. lia.
      * exact Hi.
      * intros j Hj. apply (Hprev (S j)). lia.
      * rewrite Hc, Ha. auto.
Qed.

Lemma collect_some_failure (outs : list (result string)) :
  forall (kinds : list string) (results : dict),
    List.length kinds = List.length outs ->
    (exists i e, nth_error outs i = Some (inl e)) ->
    exists e', collect kinds outs results = inl e'.
Proof.
  induction outs as [|o os IH]; intros kinds results Hlen (i & e & Hi).
  - destruct i; discriminate Hi.
  - destruct kinds as [|kind ks]; [discriminate Hlen|].
    destruct o as [e0|img]; [eexists; reflexivity|].
    destruct i as [|i]; [discriminate Hi|].
    simpl. apply IH; [simpl in Hlen; lia|eauto].
Qed.

Lemma collect_success (outs : list (result string)) :
  forall (kinds : list string) (results d : dict),
    List.length kinds = List.length outs ->
    collect kinds outs results = inr d ->
    Forall succeeded outs /\ attempted outs = List.length outs.
Proof.
  induction outs as [|o os IH]; intros kinds results d Hlen Hc.
  - split; [constructor|reflexivity].
  - destruct kinds as [|kind ks]; [discriminate Hlen|].
    destruct o as [e0|img]; [discriminate Hc|].
    simpl in Hc.
    destruct (IH ks (setitem results kind img) d) as [Hall Ha];
      [simpl in Hlen; lia|exact Hc|].
    split; [constructor; [exact I|exact Hall]|simpl; rewrite Ha; reflexivity].
Qed.

(** Four images in a row are returned under the four kinds, in order. *)
Lemma collect_four (outs : list (result string)) :
  List.length outs = 4 ->
  Forall succeeded outs ->
  exists i1 i2 i3 i4,
    outs = [inr i1; inr i2; inr i3; inr i4]
    /\ collect LAYER_KINDS outs []
       = inr [("object", i1); ("background", i2); ("light", i3); ("combo", i4)].
Proof.
  intros Hlen Hall.
  destruct outs as [|o1 [|o2 [|o3 [|o4 [|o5 outs]]]]]; try discriminate Hlen.
  inversion Hall as [|? ? H1 Hall1]; subst.
  inversion Hall1 as [|? ? H2 Hall2]; subst.
  inversion Hall2 as [|? ? H3 Hall3]; subst.
  inversion Hall3 as [|? ? H4 _]; subst.
  destruct o1 as [?|i1]; [contradiction|].
  destruct o2 as [?|i2]; [contradiction|].
  destruct o3 as [?|i3]; [contradiction|].
  destruct o4 as [?|i4]; [contradiction|].
  exists i1, i2, i3, i4. split; reflexivity.
Qed.

(** C1. The layers are asked for one after the other in the order object,
    background, light, combo, each from the history the calls before it
    left. The first layer that fails ends the request: no further layer is
    asked for and the answer is an HTTP 500 with the message of that
    failure; a failure of the decomposition, or of the constructor of the
    client, does the same before any layer. A body is returned only when
    the four layers succeeded, and then it holds the four images. *)
Theorem gen_all_all_or_nothing (req : GenAllReq.t) (h : History) :
  match client_error remote (GenAllReq.apiKey req) with
  | Some e => gen_all req h = ([], inl {| status_code := 500; detail := e |})
  | None =>
  match gen_all_dec {| api_key := GenAllReq.apiKey req |} req h with
  | (pre, inl e) => gen_all req h = (pre, inl {| status_code := 500; detail := e |})
  | (pre, inr dec) =>
      exists o b l m : string,
        dec = [("object", o); ("background", b); ("light", l); ("mood", m)]
        /\ let calls := map (all_layer_call req o b l m)
                          ["object"; "background"; "light"; "combo"] in
           let outs := outcomes (GenAllReq.imageModel req) calls (h ++ pre)%list in
           fst (gen_all req h) = (pre ++ firstn (attempted outs) calls)%list
           /\ (forall (i : nat) (e : Exc),
                 nth_error outs i = Some (inl e) ->
                 (forall j, j < i -> exists img, nth_error outs j = Some (inr img)) ->
                 snd (gen_all req h) = inl {| status_code := 500; detail := e |}
                 /\ attempted outs = S i)
           /\ ((exists i e, nth_error outs i = Some (inl e)) ->
               exists e', snd (gen_all req h) = inl {| status_code := 500; detail := e' |})
           /\ (Forall succeeded outs ->
               exists i1 i2 i3 i4 : string,
                 outs = [inr i1; inr i2; inr i3; inr i4]
                 /\ snd (gen_all req h)
                    = inr {| resp_layers := [("object", i1); ("background", i2);
                                             ("light", i3); ("combo", i4)];
                             resp_decomposed := dec |})
           /\ (forall body : GenAllResp,
                 snd (gen_all req h) = inr body ->
                 Forall succeeded outs /\ attempted outs = 4)
  end
  end.
Proof.
  destruct (client_error remote (GenAllReq.apiKey req)) as [e|] eqn:Hc;
    [exact (gen_all_no_client req h e Hc)|].
  destruct (gen_all_dec _ req h) as [pre [e|dec]] eqn:Hdec.
  - rewrite (gen_all_run req h Hc), Hdec. reflexivity.
  - destruct (gen_all_dec_shape _ req h pre dec Hdec) as (o & b & l & m & ->).
    exists o, b, l, m. split; [reflexivity|].
    intros calls outs.
    rewrite (gen_all_layers req h pre o b l m Hc Hdec). cbn [fst snd].
    change (map (all_layer_call req o b l m) LAYER_KINDS) with calls.
    change (outcomes (GenAllReq.imageModel req) calls (h ++ pre)%list) with outs.
    assert (Hlen : List.length LAYER_KINDS = List.length outs) by reflexivity.
    split; [reflexivity|]. split; [|split; [|split]].
    + intros i e Hi Hprev.
      destruct (collect_first_failure outs LAYER_KINDS [] i e Hlen Hi Hprev) as [-> Ha].
      auto.
    + intros Hfail.
      destruct (collect_some_failure outs LAYER_KINDS [] Hlen Hfail) as [e' ->].
      eauto.
    + intros Hall.
      destruct (collect_four outs (eq_sym Hlen) Hall) as (i1 & i2 & i3 & i4 & Ho & ->).
      exists i1, i2, i3, i4. auto.
    + intros body Hbody.
      destruct (collect LAYER_KINDS outs []) as [e|d] eqn:Hc'; [discriminate|].
      exact (collect_success outs LAYER_KINDS [] d Hlen Hc').
Qed.

(** ** Credentials and error classes *)

Lemma or_http_status {A} (code : N) (m : M A) (h : History) (err : HTTPException) :
  snd (or_http code m h) = inl err -> status_code err = code.
Proof.
  unfold or_http. destruct (m h) as [evs [e|a]]; simpl; intros H; [|discriminate].
  injection H as <-. reflexivity.
Qed.

Lemma mem_In (x : string) (l : list string) : mem x l = true <-> In x l.
Proof.
  unfold mem. rewrite existsb_exists. split.
  - intros (y & Hy & E). apply String.eqb_eq in E. subst. exact Hy.
  - intros H. exists x. split; [exact H|apply String.eqb_refl].
Qed.

Lemma next_in_default (preferred names : list string) (default : string) :
  (forall m, In m preferred -> ~ In m names) ->
  next_in preferred names default = default.
Proof.
  intros Habs. unfold next_in.
  destruct (find (fun m => mem m names) preferred) as [m|] eqn:Hf; [|reflexivity].
  apply find_some in Hf as [Hin Hm]. apply mem_In in Hm.
  exfalso. exact (Habs m Hin Hm).
Qed.

Lemma detect_models_total (c : Client) (h : History) :
  exists im tm, detect_models c h = ([ListModels c], inr (im, tm)).
Proof.
  unfold detect_models, try_except, bind, list_models, ret.
  destruct (models_list remote h c) as [e|ms]; cbn; eauto.
Qed.

Lemma connect_run (req : ConnectReq.t) (h : History) :
  connect req h =
  match client_error remote (ConnectReq.apiKey req) with
  | Some e => ([], inl {| status_code := 400; detail := e |})
  | None =>
      let c := {| api_key := ConnectReq.apiKey req |} in
      match snd (detect_models c h) with
      | inl e => ([ListModels c], inl {| status_code := 400; detail := e |})
      | inr (im, tm) =>
          ([ListModels c;
            GenerateContent c tm (Text "Reply with just the word OK.") connect_config],
           match models_generate_content remote (h ++ [ListModels c])%list c tm
                   (Text "Reply with just the word OK.") connect_config with
           | inl e => inl {| status_code := 400; detail := e |}
           | inr _ => inr {| resp_imageModel := im; resp_textModel := tm |}
           end)
      end
  end.
Proof.
  unfold connect. rewrite or_http_client.
  destruct (client_error remote _) as [e|]; [reflexivity|]. cbn zeta.
  destruct (detect_models_total {| api_key := ConnectReq.apiKey req |} h)
    as (im & tm & Hrun).
  unfold or_http, bind, generate_content, ret. rewrite Hrun. cbn [snd].
  destruct (models_generate_content remote _ _ tm _ _); reflexivity.
Qed.

(** C9. [detect_models] falls back on the first entry of each built-in
    list when listing the models raises or no preferred model is listed,
    and never raises itself. Once the client is built, the connect route
    answers from its test call alone: an exception there is an HTTP 400,
    otherwise the detected pair is returned; an exception of the
    constructor of the client is an HTTP 400 as well. Every error of
    connect is a 400; every error of the other routes is a 500. *)
Theorem connect_fallback_and_errors :
  (hd_error IMAGE_MODELS = Some "gemini-2.5-flash-image"
   /\ hd_error TEXT_MODELS = Some "gemini-2.0-flash")
  /\ (forall (c : Client) (h : History) (e : Exc),
        models_list remote h c = inl e ->
        snd (detect_models c h) = inr ("gemini-2.5-flash-image", "gemini-2.0-flash"))
  /\ (forall (c : Client) (h : History) (ms : list Model),
        models_list remote h c = inr ms ->
        (forall m, In m (IMAGE_MODELS ++ TEXT_MODELS)%list -> ~ In m (model_names ms)) ->
        snd (detect_models c h) = inr ("gemini-2.5-flash-image", "gemini-2.0-flash"))
  /\ (forall (req : ConnectReq.t) (h : History) (im tm : string),
        let c := {| api_key := ConnectReq.apiKey req |} in
        client_error remote (ConnectReq.apiKey req) = None ->
        snd (detect_models c h) = inr (im, tm) ->
        match models_generate_content remote (h ++ [ListModels c])%list c tm
                (Text "Reply with just the word OK.") connect_config with
        | inl e => snd (connect req h) = inl {| status_code := 400; detail := e |}
        | inr _ => snd (connect req h)
                   = inr {| resp_imageModel := im; resp_textModel := tm |}
        end)
  /\ (forall (req : ConnectReq.t) (h : History) (e : Exc),
        client_error remote (ConnectReq.apiKey req) = Some e ->
        connect req h = ([], inl {| status_code := 400; detail := e |}))
  /\ (forall req h err, snd (connect req h) = inl err -> status_code err = 400%N)
  /\ (forall req h err, snd (gen_layer req h) = inl err -> status_code err = 500%N)
  /\ (forall req h err, snd (gen_all req h) = inl err -> status_code err = 500%N)
  /\ (forall req h err, snd (edit req h) = inl err -> status_code err = 500%N)
  /\ (forall req h err, snd (merge req h) = inl err -> status_code err = 500%N)
  /\ (forall req h err, snd (improve req h) = inl err -> status_code err = 500%N)
  /\ (forall req h err, snd (decompose req h) = inl err -> status_code err = 500%N).
Proof.
  split; [split; reflexivity|].
  split.
  { intros c h e He.
    unfold detect_models, try_except, bind, list_models, ret. rewrite He. reflexivity. }
  split.
  { intros c h ms Hms Habs.
    unfold detect_models, try_except, bind, list_models, ret. rewrite Hms. cbn.
    rewrite !next_in_default; [reflexivity| |];
      intros m Hm; apply Habs, in_or_app; auto. }
  split.
  { intros req h im tm c Hc Hdet.
    rewrite connect_run, Hc. cbn zeta. fold c. rewrite Hdet. cbn [snd].
    destruct (models_generate_content remote _ c tm _ _); reflexivity. }
  split.
  { intros req h e Hc. rewrite connect_run, Hc. reflexivity. }
  repeat split; intros req h err; apply or_http_status.
Qed.

(* ================================================================== *)
(** * Further properties of the code *)

(** ** Data URIs *)

Lemma table_no_comma_checked : forallb table_no_comma (below 64) = true.
Proof. vm_compute. reflexivity. Qed.

Lemma contains_comma_b2a (n : N) (r : string) :
  (n < 64)%N -> Py.contains_char "," (String (b2a n) r) = Py.contains_char "," r.
Proof.
  intros Hn. pose proof (below_complete _ 64 table_no_comma_checked n Hn) as H.
  unfold table_no_comma in H. apply negb_true_iff in H.
  cbn [Py.contains_char]. rewrite H. reflexivity.
Qed.

Lemma b64encode_no_comma (b : bytes) : Py.contains_char "," (b64encode b) = false.
Proof.
  induction b as [|x|x y|x y z l IH] using list_ind3; cbn [b64encode].
  - reflexivity.
  - bits x x00. rewrite !contains_comma_b2a by assumption. reflexivity.
  - bits x y. bits y x00. rewrite !contains_comma_b2a by assumption. reflexivity.
  - bits x y. bits y z. bits z z. rewrite !contains_comma_b2a by assumption. exact IH.
Qed.

(** X1. The base64 text of an image is read back with no data-URI prefix at
    all, and behind any prefix that has no comma of its own, whatever media
    type it names. *)
Theorem b64_to_bytes_any_prefix (b : bytes) :
  b64_to_bytes (b64encode b) = inr b
  /\ (forall pre : string,
        Py.contains_char "," pre = false ->
        b64_to_bytes (pre ++ String "," (b64encode b)) = inr b).
Proof.
  split.
  - unfold b64_to_bytes. rewrite b64encode_no_comma. apply b64decode_b64encode.
  - intros pre Hpre. rewrite (b64_to_bytes_prefixed pre _ Hpre).
    apply b64decode_b64encode.
Qed.

Lemma b64_to_bytes_bytes_to_b64 (b : bytes) : b64_to_bytes (bytes_to_b64 b) = inr b.
Proof.
  unfold bytes_to_b64.
  change ("data:image/png;base64," ++ b64encode b)
    with ("data:image/png;base64" ++ String "," (b64encode b)).
  rewrite b64_to_bytes_prefixed by reflexivity.
  apply b64decode_b64encode.
Qed.

(** X2. Two different images never get the same data URI. *)
Theorem bytes_to_b64_distinct (a b : bytes) :
  a <> b -> bytes_to_b64 a <> bytes_to_b64 b.
Proof.
  intros Hne Heq. apply Hne.
  assert (H : b64_to_bytes (bytes_to_b64 a) = b64_to_bytes (bytes_to_b64 b))
    by (rewrite Heq; reflexivity).
  rewrite !b64_to_bytes_bytes_to_b64 in H. injection H as H. exact H.
Qed.

Lemma div3_step (n : nat) : (S (S (S n)) + 2) / 3 = S ((n + 2) / 3).
Proof.
  replace (S (S (S n)) + 2) with (1 * 3 + (n + 2)) by lia.
  rewrite Nat.div_add_l by lia. reflexivity.
Qed.

Lemma length_b64encode (b : bytes) :
  String.length (b64encode b) = 4 * ((List.length b + 2) / 3).
Proof.
  induction b as [|x|x y|x y z l IH] using list_ind3; try reflexivity.
  cbn [b64encode String.length List.length]. rewrite IH, div3_step. lia.
Qed.

(** X3. The data URI of [n] bytes has 22 characters of prefix and four
    characters for every group of three bytes, the last group being
    padded. *)
Theorem length_bytes_to_b64 (b : bytes) :
  String.length (bytes_to_b64 b) = 22 + 4 * ((List.length b + 2) / 3).
Proof.
  unfold bytes_to_b64. rewrite length_app, length_b64encode. reflexivity.
Qed.

(** ** Model detection *)

Lemma find_first {A} (f : A -> bool) (l : list A) (m : A) :
  find f l = Some m ->
  exists before after,
    l = (before ++ m :: after)%list /\ f m = true /\ forall x, In x before -> f x = false.
Proof.
  induction l as [|a l IH]; simpl; [discriminate|].
  destruct (f a) eqn:Fa.
  - intros H. injection H as <-. exists [], l. repeat split; [exact Fa|intros x []].
  - intros H. destruct (IH H) as (before & after & -> & Hm & Hb).
    exists (a :: before), after. repeat split; [exact Hm|].
    intros x [<-|Hx]; [exact Fa|exact (Hb x Hx)].
Qed.

Lemma mem_false (x : string) (l : list string) : mem x l = false -> ~ In x l.
Proof. intros H Hin. apply mem_In in Hin. congruence. Qed.

Lemma next_in_member (preferred names : list string) (default : string) :
  In default preferred -> In (next_in preferred names default) preferred.
Proof.
  intros Hd. unfold next_in.
  destruct (find _ preferred) as [m|] eqn:Hf; [|exact Hd].
  apply find_some in Hf. tauto.
Qed.

(** When a preferred model is listed, the one chosen is listed and no
    model before it in the preference list is. *)
Lemma next_in_first (preferred names : list string) (default m : string) :
  In m preferred -> In m names ->
  exists before after,
    preferred = (before ++ next_in preferred names default :: after)%list
    /\ In (next_in preferred names default) names
    /\ forall x, In x before -> ~ In x names.
Proof.
  intros Hp Hn. unfold next_in.
  destruct (find (fun x => mem x names) preferred) as [c|] eqn:Hf.
  - destruct (find_first _ _ _ Hf) as (before & after & Hl & Hc & Hb).
    exists before, after. repeat split; [exact Hl|apply mem_In, Hc|].
    intros x Hx. apply mem_false, Hb, Hx.
  - exfalso. pose proof (find_none _ _ Hf m Hp) as H. cbn in H.
    apply mem_false in H. exact (H Hn).
Qed.

Lemma detect_models_listed (c : Client) (h : History) (ms : list Model) :
  models_list remote h c = inr ms ->
  detect_models c h
  = ([ListModels c],
     inr (next_in IMAGE_MODELS (model_names ms) "gemini-2.5-flash-image",
          next_in TEXT_MODELS (model_names ms) "gemini-2.0-flash")).
Proof.
  intros Hms. unfold detect_models, try_except, bind, list_models, ret. rewrite Hms.
  reflexivity.
Qed.

Lemma detect_models_members (c : Client) (h : History) (im tm : string) :
  snd (detect_models c h) = inr (im, tm) -> In im IMAGE_MODELS /\ In tm TEXT_MODELS.
Proof.
  destruct (models_list remote h c) as [e|ms] eqn:Hl.
  - unfold detect_models, try_except, bind, list_models, ret. rewrite Hl. cbn.
    intros H. injection H as <- <-. split; left; reflexivity.
  - rewrite (detect_models_listed c h ms Hl). cbn [snd].
    intros H. injection H as <- <-.
    split; apply next_in_member; left; reflexivity.
Qed.

(** X4. Whatever the service lists, the pair detected is made of a built-in
    image model and a built-in text model, and so is the body of a
    successful connect. *)
Theorem connect_models_built_in (req : ConnectReq.t) (h : History) :
  (forall im tm : string,
      snd (detect_models {| api_key := ConnectReq.apiKey req |} h) = inr (im, tm) ->
      In im IMAGE_MODELS /\ In tm TEXT_MODELS)
  /\ (forall body : ConnectResp,
        snd (connect req h) = inr body ->
        In (resp_imageModel body) IMAGE_MODELS /\ In (resp_textModel body) TEXT_MODELS).
Proof.
  split; [apply detect_models_members|].
  intros body. rewrite connect_run.
  destruct (client_error remote _) as [e|]; [discriminate|]. cbn zeta.
  destruct (snd (detect_models {| api_key := ConnectReq.apiKey req |} h))
    as [e|[im tm]] eqn:Hdet; [discriminate|]. cbn [snd].
  destruct (models_generate_content remote _ _ tm _ _); [discriminate|].
  intros H. injection H as <-. exact (detect_models_members _ h im tm Hdet).
Qed.

(** X5. Of the preferred models that the service lists, the first in the
    order of the built-in list is the one detected, for the image model
    and for the text model. *)
Theorem detect_models_first_listed (c : Client) (h : History) (ms : list Model)
    (im tm : string) :
  models_list remote h c = inr ms ->
  snd (detect_models c h) = inr (im, tm) ->
  ((exists m, In m IMAGE_MODELS /\ In m (model_names ms)) ->
   exists before after,
     IMAGE_MODELS = (before ++ im :: after)%list
     /\ In im (model_names ms)
     /\ forall x, In x before -> ~ In x (model_names ms))
  /\ ((exists m, In m TEXT_MODELS /\ In m (model_names ms)) ->
      exists before after,
        TEXT_MODELS = (before ++ tm :: after)%list
        /\ In tm (model_names ms)
        /\ forall x, In x before -> ~ In x (model_names ms)).
Proof.
  intros Hms. rewrite (detect_models_listed c h ms Hms). cbn [snd].
  intros H. injection H as <- <-.
  split; intros (m & Hp & Hn); exact (next_in_first _ _ _ m Hp Hn).
Qed.

Lemma split_last_no_sep (ch : ascii) (s : string) :
  Py.contains_char ch (Py.split_last ch s) = false.
Proof.
  induction s as [|c r IH]; [reflexivity|].
  cbn [Py.split_last]. destruct (Py.contains_char ch r) eqn:Hr; [exact IH|].
  destruct (Ascii.eqb c ch) eqn:Hc; [exact Hr|].
  cbn [Py.contains_char]. rewrite Hc. exact Hr.
Qed.

Lemma split_last_app (ch : ascii) (pre m : string) :
  Py.contains_char ch m = false -> Py.split_last ch (pre ++ String ch m) = m.
Proof.
  intros Hm. induction pre as [|c pre IH]; cbn [append Py.split_last].
  - rewrite Hm, Ascii.eqb_refl. reflexivity.
  - rewrite contains_char_app. exact IH.
Qed.

(** X6. A listed name counts by its last path segment: an entry
    [.../<model>] makes [<model>] known, and no known name has a slash. *)
Theorem model_names_last_segment (ms : list Model) :
  (forall pre m : string,
      Py.contains_char "/" m = false ->
      In {| name := Some (pre ++ String "/" m) |} ms ->
      In m (model_names ms))
  /\ (forall n : string, In n (model_names ms) -> Py.contains_char "/" n = false).
Proof.
  split.
  - intros pre m Hm. induction ms as [|x ms IH]; intros Hin; [destruct Hin|].
    cbn [model_names]. destruct Hin as [->|Hin].
    + cbn [name].
      assert (Ht : Py.truthy (pre ++ String "/" m) = true) by (destruct pre; reflexivity).
      rewrite Ht, (split_last_app "/" pre m Hm). left. reflexivity.
    + destruct (name x) as [n|]; [destruct (Py.truthy n)|]; auto. right. auto.
  - intros n. induction ms as [|x ms IH]; intros Hin; [destruct Hin|].
    cbn [model_names] in Hin.
    destruct (name x) as [nm|]; [destruct (Py.truthy nm)|]; auto.
    destruct Hin as [<-|Hin]; [apply split_last_no_sep|auto].
Qed.

(** X7. A connect request whose client is built lists the models and then
    makes its test call on a built-in text model, whether the listing
    worked or not, and makes no other call. When the constructor of the
    client raises, the request makes no call and is answered by an HTTP
    400 with its message. *)
Theorem connect_calls (req : ConnectReq.t) (h : History) :
  match client_error remote (ConnectReq.apiKey req) with
  | Some e => connect req h = ([], inl {| status_code := 400; detail := e |})
  | None =>
      exists tm : string,
        In tm TEXT_MODELS
        /\ fst (connect req h)
           = [ListModels {| api_key := ConnectReq.apiKey req |};
              GenerateContent {| api_key := ConnectReq.apiKey req |} tm
                (Text "Reply with just the word OK.")
                {| response_modalities := None; temperature := None;
                   max_output_tokens := Some 5%N |}]
  end.
Proof.
  rewrite connect_run.
  destruct (client_error remote _) as [e|]; [reflexivity|]. cbn zeta.
  destruct (detect_models_total {| api_key := ConnectReq.apiKey req |} h)
    as (im & tm & Hrun).
  exists tm. split.
  - apply (detect_models_members {| api_key := ConnectReq.apiKey req |} h im tm).
    rewrite Hrun. reflexivity.
  - rewrite Hrun. reflexivity.
Qed.

(** ** The edit and merge routes *)

Lemma edit_run (req : EditReq.t) (h : History) :
  edit req h =
  match client_error remote (EditReq.apiKey req) with
  | Some e => ([], inl {| status_code := 500; detail := e |})
  | None =>
  match b64_to_bytes (EditReq.image req) with
  | inl e => ([], inl {| status_code := 500; detail := e |})
  | inr src =>
      let contents :=
        Parts [Part_from_bytes src "image/png";
               Part_from_text (EditReq.instruction req ++ NL ++ NO_CHANGE)] in
      ([GenerateContent {| api_key := EditReq.apiKey req |} (EditReq.imageModel req)
          contents CFG_IMG],
       match models_generate_content remote h {| api_key := EditReq.apiKey req |}
               (EditReq.imageModel req) contents CFG_IMG with
       | inl e => inl {| status_code := 500; detail := e |}
       | inr resp =>
           match extract_img resp (EditReq.imageModel req) with
           | inl e => inl {| status_code := 500; detail := e |}
           | inr png => inr {| resp_image := bytes_to_b64 png |}
           end
       end)
  end
  end.
Proof.
  unfold edit. rewrite or_http_client.
  destruct (client_error remote _) as [e|]; [reflexivity|].
  unfold or_http, bind, lift, generate_content, ret. cbn zeta.
  destruct (b64_to_bytes (EditReq.image req)) as [e|src]; [reflexivity|].
  cbn [app]. rewrite !List.app_nil_r.
  destruct (models_generate_content remote h _ _ _ _) as [e|resp]; [reflexivity|].
  destruct (extract_img resp _) as [e|png]; reflexivity.
Qed.

(** X8. The edit route builds the client, then decodes the image, then
    calls the service. When the constructor of the client raises, its
    message is the HTTP 500 answered, whatever the image. Otherwise an
    image that does not decode is refused with an HTTP 500 before the
    service is called, and an image given as a data URI of any media type,
    or as bare base64, is sent as its bytes, labelled [image/png],
    followed by the instruction and the keep-unchanged clause, in one
    call. *)
Theorem edit_image_checked_first (req : EditReq.t) (h : History) :
  (forall e : Exc,
      client_error remote (EditReq.apiKey req) = Some e ->
      edit req h = ([], inl {| status_code := 500; detail := e |}))
  /\ (client_error remote (EditReq.apiKey req) = None ->
      (forall e : Exc,
          b64_to_bytes (EditReq.image req) = inl e ->
          edit req h = ([], inl {| status_code := 500; detail := e |}))
      /\ (forall (pre : string) (b : bytes),
            Py.contains_char "," pre = false ->
            EditReq.image req = pre ++ String "," (b64encode b)
            \/ EditReq.image req = b64encode b ->
            fst (edit req h)
            = [GenerateContent {| api_key := EditReq.apiKey req |}
                 (EditReq.imageModel req)
                 (Parts [Part_from_bytes b "image/png";
                         Part_from_text (EditReq.instruction req ++ NL ++ NO_CHANGE)])
                 CFG_IMG])).
Proof.
  split; [intros e Hc; rewrite edit_run, Hc; reflexivity|].
  intros Hc. split.
  - intros e He. rewrite edit_run, Hc, He. reflexivity.
  - intros pre b Hpre Himg.
    assert (Hb : b64_to_bytes (EditReq.image req) = inr b).
    { destruct Himg as [-> | ->].
      - rewrite (b64_to_bytes_prefixed pre _ Hpre). apply b64decode_b64encode.
      - unfold b64_to_bytes. rewrite b64encode_no_comma. apply b64decode_b64encode. }
    rewrite edit_run, Hc, Hb. reflexivity.
Qed.

Lemma merge_run (req : MergeReq.t) (h : History) :
  merge req h =
  match client_error remote (MergeReq.apiKey req) with
  | Some e => ([], inl {| status_code := 500; detail := e |})
  | None =>
  match b64_to_bytes (MergeReq.fgImage req) with
  | inl e => ([], inl {| status_code := 500; detail := e |})
  | inr fg =>
      match b64_to_bytes (MergeReq.bgImage req) with
      | inl e => ([], inl {| status_code := 500; detail := e |})
      | inr bg =>
          let contents :=
            Parts [Part_from_bytes fg "image/png"; Part_from_bytes bg "image/png";
                   Part_from_text (merge_instr req)] in
          ([GenerateContent {| api_key := MergeReq.apiKey req |} (MergeReq.imageModel req)
              contents CFG_IMG],
           match models_generate_content remote h {| api_key := MergeReq.apiKey req |}
                   (MergeReq.imageModel req) contents CFG_IMG with
           | inl e => inl {| status_code := 500; detail := e |}
           | inr resp =>
               match extract_img resp (MergeReq.imageModel req) with
               | inl e => inl {| status_code := 500; detail := e |}
               | inr png => inr {| resp_image := bytes_to_b64 png |}
               end
           end)
      end
  end
  end.
Proof.
  unfold merge. rewrite or_http_client.
  destruct (client_error remote _) as [e|]; [reflexivity|].
  unfold or_http, bind, lift, generate_content, ret. cbn zeta.
  destruct (b64_to_bytes (MergeReq.fgImage req)) as [e|fg]; [reflexivity|].
  destruct (b64_to_bytes (MergeReq.bgImage req)) as [e|bg]; [reflexivity|].
  cbn [app]. rewrite !List.app_nil_r.
  destruct (models_generate_content remote h _ _ _ _) as [e|resp]; [reflexivity|].
  destruct (extract_img resp _) as [e|png]; reflexivity.
Qed.

(** X9. The merge route builds the client, decodes the foreground, then
    the background, and calls the service only when all three succeed.
    When the constructor of the client raises, its message is the HTTP 500
    answered, whatever the images. Otherwise a bad foreground is reported
    whatever the background is, a bad background is reported after a good
    foreground, and neither costs a call. When both decode, the one call
    carries the foreground, the background and the instruction, in this
    order. *)
Theorem merge_images_checked_in_order (req : MergeReq.t) (h : History) :
  (forall e : Exc,
      client_error remote (MergeReq.apiKey req) = Some e ->
      merge req h = ([], inl {| status_code := 500; detail := e |}))
  /\ (client_error remote (MergeReq.apiKey req) = None ->
      (forall e : Exc,
          b64_to_bytes (MergeReq.fgImage req) = inl e ->
          merge req h = ([], inl {| status_code := 500; detail := e |}))
      /\ (forall (fg : bytes) (e : Exc),
            b64_to_bytes (MergeReq.fgImage req) = inr fg ->
            b64_to_bytes (MergeReq.bgImage req) = inl e ->
            merge req h = ([], inl {| status_code := 500; detail := e |}))
      /\ (forall fg bg : bytes,
            b64_to_bytes (MergeReq.fgImage req) = inr fg ->
            b64_to_bytes (MergeReq.bgImage req) = inr bg ->
            fst (merge req h)
            = [GenerateContent {| api_key := MergeReq.apiKey req |}
                 (MergeReq.imageModel req)
                 (Parts [Part_from_bytes fg "image/png"; Part_from_bytes bg "image/png";
                         Part_from_text (merge_instr req)])
                 CFG_IMG])).
Proof.
  split; [intros e Hc; rewrite merge_run, Hc; reflexivity|].
  intros Hc. repeat split.
  - intros e He. rewrite merge_run, Hc, He. reflexivity.
  - intros fg e Hfg Hbg. rewrite merge_run, Hc, Hfg, Hbg. reflexivity.
  - intros fg bg Hfg Hbg. rewrite merge_run, Hc, Hfg, Hbg. reflexivity.
Qed.

Lemma drop_space_blank (backwards : bool) (s : string) :
  blank s -> Py.drop_space backwards s = EmptyString.
Proof.
  unfold blank. induction s as [|c r IH]; cbn [list_ascii_of_string]; intros H.
  - reflexivity.
  - inversion H as [|? ? Hc Hr]; subst. cbn [Py.drop_space]. rewrite Hc. exact (IH Hr).
Qed.

Lemma strip_blank (s : string) : blank s -> Py.strip s = EmptyString.
Proof.
  intros H. unfold Py.strip, Py.lstrip, Py.rstrip.
  rewrite (drop_space_blank false s H). reflexivity.
Qed.

(** X10. A hint made of spaces, tabs or line breaks only counts as no hint:
    the instruction is the fixed text with the two names. Any other hint
    is appended after it as it was given, its own surrounding spaces
    kept. *)
Theorem merge_instr_hint (req : MergeReq.t) :
  (blank (MergeReq.hint req) ->
   merge_instr req = merge_base (MergeReq.fgName req) (MergeReq.bgName req))
  /\ (Py.strip (MergeReq.hint req) <> EmptyString ->
      merge_instr req
      = merge_base (MergeReq.fgName req) (MergeReq.bgName req)
        ++ NL ++ "Extra blending note: " ++ MergeReq.hint req).
Proof.
  unfold merge_instr, merge_base. split.
  - intros Hb. rewrite (strip_blank _ Hb). cbn [Py.truthy].
    rewrite ?app_assoc. reflexivity.
  - intros Hs. destruct (Py.strip (MergeReq.hint req)); [contradiction|].
    cbn [Py.truthy]. rewrite ?app_assoc. reflexivity.
Qed.

(** ** More on the generate-all route *)

Lemma attempted_bounds (outs : list (result string)) :
  outs <> [] -> 1 <= attempted outs <= List.length outs.
Proof.
  induction outs as [|o os IH]; intros Hne; [contradiction|].
  destruct o as [e|img]; cbn [attempted List.length]; [lia|].
  destruct os as [|o' os']; [cbn; lia|].
  assert (H : o' :: os' <> []) by discriminate. specialize (IH H). lia.
Qed.

Lemma attempted_layers (req : GenAllReq.t) (o b l m : string) (h : History) :
  1 <= attempted (outcomes (GenAllReq.imageModel req)
                    (map (all_layer_call req o b l m) LAYER_KINDS) h) <= 4.
Proof.
  exact (attempted_bounds
           (outcomes (GenAllReq.imageModel req)
              (map (all_layer_call req o b l m) LAYER_KINDS) h)
           ltac:(discriminate)).
Qed.

(** The calls of a generate-all request whose client is built: the
    decomposition call or none, then at most the four layer calls of some
    attributes. *)
Lemma gen_all_events (req : GenAllReq.t) (h : History) :
  client_error remote (GenAllReq.apiKey req) = None ->
  exists (pre : list Event) (o b l m : string) (n : nat),
    (pre = [] \/ pre = [decomposition_call req])
    /\ n <= 4
    /\ (pre = [] -> 1 <= n)
    /\ fst (gen_all req h)
       = (pre ++ firstn n (map (all_layer_call req o b l m) LAYER_KINDS))%list.
Proof.
  intros Hc.
  assert (Hsupplied :
            ~ (GenAllReq.objectPrompt req = "" /\ GenAllReq.backgroundPrompt req = "") ->
            exists (pre : list Event) (o b l m : string) (n : nat),
              (pre = [] \/ pre = [decomposition_call req])
              /\ n <= 4
              /\ (pre = [] -> 1 <= n)
              /\ fst (gen_all req h)
                 = (pre ++ firstn n (map (all_layer_call req o b l m) LAYER_KINDS))%list).
  { intros Hne.
    pose proof (gen_all_dec_supplied {| api_key := GenAllReq.apiKey req |} req h Hne)
      as Hdec.
    exists [], (GenAllReq.objectPrompt req), (GenAllReq.backgroundPrompt req),
      (GenAllReq.lightPrompt req), (GenAllReq.moodPrompt req).
    eexists. rewrite (gen_all_layers req h [] _ _ _ _ Hc Hdec). cbn [fst].
    split; [left; reflexivity|]. split; [apply attempted_layers|].
    split; [intros _; apply attempted_layers|reflexivity]. }
  destruct (string_dec (GenAllReq.objectPrompt req) "") as [Ho|Ho]; [|apply Hsupplied; tauto].
  destruct (string_dec (GenAllReq.backgroundPrompt req) "") as [Hb|Hb];
    [|apply Hsupplied; tauto].
  destruct (gen_all_dec_asked {| api_key := GenAllReq.apiKey req |} req h Ho Hb eq_refl)
    as [r Hr].
  destruct r as [e|dec].
  - exists [decomposition_call req], "", "", "", "", 0.
    rewrite (gen_all_run req h Hc), Hr. cbn [fst].
    split; [right; reflexivity|]. split; [lia|]. split; [discriminate|reflexivity].
  - destruct (gen_all_dec_shape _ req h _ dec Hr) as (o & b & l & m & ->).
    exists [decomposition_call req], o, b, l, m.
    eexists. rewrite (gen_all_layers req h _ o b l m Hc Hr). cbn [fst].
    split; [right; reflexivity|]. split; [apply attempted_layers|].
    split; [discriminate|reflexivity].
Qed.

Lemma improve_run (req : ImproveReq.t) (h : History) :
  improve req h =
  match client_error remote (ImproveReq.apiKey req) with
  | Some e => ([], inl {| status_code := 500; detail := e |})
  | None =>
      let contents :=
        Text ("Improve this image editing/generation prompt for target '"
              ++ ImproveReq.target req ++ "'. "
              ++ "Keep the intent, make it more specific and visually descriptive. "
              ++ "Output ONLY the improved prompt text, nothing else." ++ NL ++ NL
              ++ "PROMPT: " ++ ImproveReq.text req) in
      ([GenerateContent {| api_key := ImproveReq.apiKey req |} (ImproveReq.textModel req)
          contents improve_config],
       match models_generate_content remote h {| api_key := ImproveReq.apiKey req |}
               (ImproveReq.textModel req) contents improve_config with
       | inl e => inl {| status_code := 500; detail := e |}
       | inr resp => inr {| resp_text := Py.strip (response_text resp) |}
       end)
  end.
Proof.
  unfold improve. rewrite or_http_client.
  destruct (client_error remote _) as [e|]; [reflexivity|].
  unfold or_http, bind, generate_content, ret. cbn zeta.
  destruct (models_generate_content remote h _ _ _ _); reflexivity.
Qed.

Lemma decompose_run (req : DecomposeReq.t) (h : History) :
  decompose req h =
  match client_error remote (DecomposeReq.apiKey req) with
  | Some e => ([], inl {| status_code := 500; detail := e |})
  | None =>
      let contents := decompose_contents (DecomposeReq.mainPrompt req) in
      ([GenerateContent {| api_key := DecomposeReq.apiKey req |}
          (DecomposeReq.textModel req) contents decompose_config],
       match models_generate_content remote h {| api_key := DecomposeReq.apiKey req |}
               (DecomposeReq.textModel req) contents decompose_config with
       | inl e => inl {| status_code := 500; detail := e |}
       | inr resp => inr (parse_decomposition (clean_text resp))
       end)
  end.
Proof.
  unfold decompose. rewrite or_http_client.
  destruct (client_error remote _) as [e|]; [reflexivity|].
  unfold or_http, decompose_sync, bind, generate_content, ret. cbn zeta.
  destruct (models_generate_content remote h _ _ _ _); reflexivity.
Qed.

(** X11. No route retries or fans out. A request whose client cannot be
    built makes no call. Otherwise connect makes two calls (the listing
    and the test), generate-layer, improve and decompose make one, edit
    and merge make one when their images decode and none when one does
    not, and generate-all makes between one and five. *)
Theorem routes_call_counts (h : History) :
  (forall req,
      List.length (fst (connect req h))
      = match client_error remote (ConnectReq.apiKey req) with
        | Some _ => 0
        | None => 2
        end)
  /\ (forall req,
        List.length (fst (gen_layer req h))
        = match client_error remote (GenLayerReq.apiKey req) with
          | Some _ => 0
          | None => 1
          end)
  /\ (forall req,
        match client_error remote (GenAllReq.apiKey req) with
        | Some _ => List.length (fst (gen_all req h)) = 0
        | None => 1 <= List.length (fst (gen_all req h)) <= 5
        end)
  /\ (forall req,
        List.length (fst (edit req h))
        = match client_error remote (EditReq.apiKey req),
                b64_to_bytes (EditReq.image req) with
          | None, inr _ => 1
          | _, _ => 0
          end)
  /\ (forall req,
        List.length (fst (merge req h))
        = match client_error remote (MergeReq.apiKey req),
                b64_to_bytes (MergeReq.fgImage req),
                b64_to_bytes (MergeReq.bgImage req) with
          | None, inr _, inr _ => 1
          | _, _, _ => 0
          end)
  /\ (forall req,
        List.length (fst (improve req h))
        = match client_error remote (ImproveReq.apiKey req) with
          | Some _ => 0
          | None => 1
          end)
  /\ (forall req,
        List.length (fst (decompose req h))
        = match client_error remote (DecomposeReq.apiKey req) with
          | Some _ => 0
          | None => 1
          end).
Proof.
  repeat apply conj; intros req.
  - rewrite connect_run. destruct (client_error remote _); [reflexivity|]. cbn zeta.
    destruct (detect_models_total {| api_key := ConnectReq.apiKey req |} h)
      as (im & tm & ->).
    reflexivity.
  - rewrite gen_layer_run. destruct (client_error remote _); reflexivity.
  - destruct (client_error remote _) as [e|] eqn:Hc.
    { rewrite (gen_all_no_client req h e Hc). reflexivity. }
    destruct (gen_all_events req h Hc)
      as (pre & o & b & l & m & n & Hpre & Hn & Hn1 & ->).
    rewrite List.length_app, List.length_firstn, List.length_map.
    cbn [LAYER_KINDS List.length].
    destruct Hpre as [->| ->]; cbn [List.length]; [specialize (Hn1 eq_refl)|]; lia.
  - rewrite edit_run. destruct (client_error remote _); [reflexivity|].
    destruct (b64_to_bytes _); reflexivity.
  - rewrite merge_run. destruct (client_error remote _); [reflexivity|].
    destruct (b64_to_bytes (MergeReq.fgImage req)); [reflexivity|].
    destruct (b64_to_bytes (MergeReq.bgImage req)); reflexivity.
  - rewrite improve_run. destruct (client_error remote _); reflexivity.
  - rewrite decompose_run. destruct (client_error remote _); reflexivity.
Qed.

(** X12. When [objectPrompt] and [backgroundPrompt] are both empty the
    decomposition replaces all four attributes: the [lightPrompt] and
    [moodPrompt] of the request have no effect on the calls made or on the
    answer. *)
Theorem gen_all_decomposition_overrides (req : GenAllReq.t) (h : History)
    (lt mood : string) :
  GenAllReq.objectPrompt req = "" ->
  GenAllReq.backgroundPrompt req = "" ->
  gen_all (with_light_mood req lt mood) h = gen_all req h.
Proof.
  intros Ho Hb.
  assert (Hdec : gen_all_dec {| api_key := GenAllReq.apiKey req |}
                   (with_light_mood req lt mood) h
                 = gen_all_dec {| api_key := GenAllReq.apiKey req |} req h).
  { unfold gen_all_dec. cbn [with_light_mood GenAllReq.objectPrompt
      GenAllReq.backgroundPrompt GenAllReq.textModel GenAllReq.mainPrompt].
    rewrite Ho, Hb. reflexivity. }
  destruct (client_error remote (GenAllReq.apiKey req)) as [e|] eqn:Hc.
  { rewrite (gen_all_no_client req h e Hc).
    exact (gen_all_no_client (with_light_mood req lt mood) h e Hc). }
  rewrite (gen_all_run req h Hc), (gen_all_run (with_light_mood req lt mood) h Hc).
  change (GenAllReq.apiKey (with_light_mood req lt mood)) with (GenAllReq.apiKey req).
  rewrite Hdec.
  destruct (gen_all_dec _ req h) as [pre [e|dec]] eqn:Hrun; [reflexivity|].
  destruct (gen_all_dec_shape _ req h pre dec Hrun) as (o & b & l & m & ->).
  rewrite (gen_all_loop_run _ (with_light_mood req lt mood) o b l m LAYER_KINDS eq_refl).
  rewrite (gen_all_loop_run _ req o b l m LAYER_KINDS eq_refl).
  reflexivity.
Qed.

(** X13. Once the client is built, a decomposition reply that does not
    parse does not stop a generate-all request: after the decomposition
    call the layers are asked for with every attribute empty, so with the
    default phrases of the templates, and the decomposition returned is
    the four empty strings. *)
Theorem gen_all_after_failed_parse (req : GenAllReq.t) (h : History) (resp : Response) :
  client_error remote (GenAllReq.apiKey req) = None ->
  GenAllReq.objectPrompt req = "" ->
  GenAllReq.backgroundPrompt req = "" ->
  models_generate_content remote h {| api_key := GenAllReq.apiKey req |}
    (GenAllReq.textModel req) (decompose_contents (GenAllReq.mainPrompt req))
    decompose_config = inr resp ->
  unparseable (clean_text resp) ->
  (exists n : nat,
      1 <= n <= 4
      /\ fst (gen_all req h)
         = decomposition_call req
           :: firstn n (map (all_layer_call req "" "" "" "") LAYER_KINDS))
  /\ all_layer_call req "" "" "" "" "object"
     = GenerateContent {| api_key := GenAllReq.apiKey req |} (GenAllReq.imageModel req)
         (Text ("Scene: " ++ GenAllReq.mainPrompt req ++ NL ++ "Mood: neutral" ++ NL
                ++ "Generate ONLY the isolated main subject/object." ++ NL
                ++ "Object: infer from scene" ++ NL
                ++ "Lighting: neutral studio" ++ NL ++ CHESS_BG ++ NL ++ STYLE_GUARD))
         CFG_IMG
  /\ (forall body : GenAllResp,
        snd (gen_all req h) = inr body ->
        resp_decomposed body
        = [("object", ""); ("background", ""); ("light", ""); ("mood", "")]).
Proof.
  intros Hc Ho Hb Hresp Hbad.
  assert (Hdec : gen_all_dec {| api_key := GenAllReq.apiKey req |} req h
                 = ([decomposition_call req], inr (dict4 "" "" "" ""))).
  { unfold gen_all_dec. rewrite Ho, Hb. cbn [Py.truthy negb andb].
    unfold decompose_sync, bind, generate_content, ret. rewrite Hresp.
    rewrite (parse_decomposition_unparseable _ Hbad). reflexivity. }
  rewrite (gen_all_layers req h _ _ _ _ _ Hc Hdec). cbn [fst snd].
  split; [|split].
  - eexists. split; [apply attempted_layers|reflexivity].
  - unfold all_layer_call. rewrite layer_prompt_object. reflexivity.
  - intros body. destruct (collect LAYER_KINDS _ []); [discriminate|].
    intros H. injection H as <-. reflexivity.
Qed.

(** ** Shape of the answers *)

Lemma layer_image_data_uri (model : string) (a : result Response) (img : string) :
  layer_image model a = inr img -> exists png, img = bytes_to_b64 png.
Proof.
  unfold layer_image. destruct a as [e|resp]; [discriminate|].
  destruct (extract_img resp model) as [e|png]; [discriminate|].
  intros H. injection H as <-. eauto.
Qed.

Lemma outcomes_data_uri (model : string) (calls : list Event) :
  forall (h : History) (img : string),
    In (inr img) (outcomes model calls h) -> exists png, img = bytes_to_b64 png.
Proof.
  induction calls as [|ev calls IH]; intros h img Hin; [destruct Hin|].
  cbn [outcomes] in Hin. destruct Hin as [Hin|Hin].
  - exact (layer_image_data_uri _ _ _ Hin).
  - exact (IH _ _ Hin).
Qed.

Lemma gen_all_body (req : GenAllReq.t) (h : History) (body : GenAllResp) :
  snd (gen_all req h) = inr body ->
  exists (pre : list Event) (o b l m i1 i2 i3 i4 : string),
    body = {| resp_layers := [("object", i1); ("background", i2);
                              ("light", i3); ("combo", i4)];
              resp_decomposed := dict4 o b l m |}
    /\ outcomes (GenAllReq.imageModel req)
         (map (all_layer_call req o b l m) LAYER_KINDS) (h ++ pre)%list
       = [inr i1; inr i2; inr i3; inr i4].
Proof.
  intros Hbody.
  destruct (client_error remote (GenAllReq.apiKey req)) as [e|] eqn:Hkey.
  { rewrite (gen_all_no_client req h e Hkey) in Hbody. discriminate Hbody. }
  destruct (gen_all_dec {| api_key := GenAllReq.apiKey req |} req h)
    as [pre [e|dec]] eqn:Hdec.
  - rewrite (gen_all_run req h Hkey), Hdec in Hbody. discriminate Hbody.
  - destruct (gen_all_dec_shape _ req h pre dec Hdec) as (o & b & l & m & ->).
    rewrite (gen_all_layers req h pre o b l m Hkey Hdec) in Hbody. cbn [snd] in Hbody.
    set (outs := outcomes _ _ _) in *.
    destruct (collect LAYER_KINDS outs []) as [e|d] eqn:Hc; [discriminate|].
    injection Hbody as <-.
    destruct (collect_success outs LAYER_KINDS [] d eq_refl Hc) as [Hall _].
    destruct (collect_four outs eq_refl Hall) as (i1 & i2 & i3 & i4 & Ho & Hd).
    rewrite Hc in Hd. injection Hd as ->.
    exists pre, o, b, l, m, i1, i2, i3, i4. auto.
Qed.

(** X14. A successful decompose answer, and the decomposition and the layers
    of a successful generate-all answer, always have their four keys, in
    the same order, whatever the service replied. *)
Theorem answers_have_four_keys (h : History) :
  (forall (req : DecomposeReq.t) (d : dict),
      snd (decompose req h) = inr d ->
      map fst d = ["object"; "background"; "light"; "mood"])
  /\ (forall (req : GenAllReq.t) (body : GenAllResp),
        snd (gen_all req h) = inr body ->
        map fst (resp_decomposed body) = ["object"; "background"; "light"; "mood"]
        /\ map fst (resp_layers body) = ["object"; "background"; "light"; "combo"]).
Proof.
  split.
  - intros req d. rewrite decompose_run.
    destruct (client_error remote _); [discriminate|]. cbn zeta. cbn [snd].
    destruct (models_generate_content remote h _ _ _ _) as [e|resp]; [discriminate|].
    intros H. injection H as <-.
    destruct (parse_decomposition_shape (clean_text resp)) as (o & b & l & m & ->).
    reflexivity.
  - intros req body Hbody.
    destruct (gen_all_body req h body Hbody)
      as (pre & o & b & l & m & i1 & i2 & i3 & i4 & -> & _).
    split; reflexivity.
Qed.

(** X15. Every image a route returns is a PNG data URI that [b64_to_bytes]
    reads back: the image of a generate-layer, edit or merge answer, and
    each layer of a generate-all answer, can be sent again as the image of
    an edit or merge request. *)
Theorem returned_images_decode (h : History) :
  (forall (req : GenLayerReq.t) (body : ImageResp),
      snd (gen_layer req h) = inr body ->
      exists png, resp_image body = bytes_to_b64 png
                  /\ b64_to_bytes (resp_image body) = inr png)
  /\ (forall (req : EditReq.t) (body : ImageResp),
        snd (edit req h) = inr body ->
        exists png, resp_image body = bytes_to_b64 png
                    /\ b64_to_bytes (resp_image body) = inr png)
  /\ (forall (req : MergeReq.t) (body : ImageResp),
        snd (merge req h) = inr body ->
        exists png, resp_image body = bytes_to_b64 png
                    /\ b64_to_bytes (resp_image body) = inr png)
  /\ (forall (req : GenAllReq.t) (body : GenAllResp) (kind img : string),
        snd (gen_all req h) = inr body ->
        In (kind, img) (resp_layers body) ->
        exists png, img = bytes_to_b64 png /\ b64_to_bytes img = inr png).
Proof.
  repeat apply conj.
  - intros req body. rewrite gen_layer_run.
    destruct (client_error remote _); [discriminate|]. cbn [snd].
    destruct (models_generate_content remote h _ _ _ _) as [e|resp]; [discriminate|].
    destruct (extract_img resp _) as [e|png]; [discriminate|].
    intros H. injection H as <-. exists png.
    split; [reflexivity|apply b64_to_bytes_bytes_to_b64].
  - intros req body. rewrite edit_run.
    destruct (client_error remote _); [discriminate|].
    destruct (b64_to_bytes (EditReq.image req)) as [e|src]; [discriminate|]. cbn [snd].
    destruct (models_generate_content remote h _ _ _ _) as [e|resp]; [discriminate|].
    destruct (extract_img resp _) as [e|png]; [discriminate|].
    intros H. injection H as <-. exists png.
    split; [reflexivity|apply b64_to_bytes_bytes_to_b64].
  - intros req body. rewrite merge_run.
    destruct (client_error remote _); [discriminate|].
    destruct (b64_to_bytes (MergeReq.fgImage req)) as [e|fg]; [discriminate|].
    destruct (b64_to_bytes (MergeReq.bgImage req)) as [e|bg]; [discriminate|]. cbn [snd].
    destruct (models_generate_content remote h _ _ _ _) as [e|resp]; [discriminate|].
    destruct (extract_img resp _) as [e|png]; [discriminate|].
    intros H. injection H as <-. exists png.
    split; [reflexivity|apply b64_to_bytes_bytes_to_b64].
  - intros req body kind img Hbody Hin.
    destruct (gen_all_body req h body Hbody)
      as (pre & o & b & l & m & i1 & i2 & i3 & i4 & -> & Houts).
    assert (Himg : In (inr img)
                     (outcomes (GenAllReq.imageModel req)
                        (map (all_layer_call req o b l m) LAYER_KINDS) (h ++ pre)%list)).
    { rewrite Houts. cbn [resp_layers In] in Hin. cbn [In].
      repeat (destruct Hin as [Hin|Hin]; [injection Hin as _ <-; tauto|]).
      destruct Hin. }
    destruct (outcomes_data_uri _ _ _ _ Himg) as [png ->].
    exists png. split; [reflexivity|apply b64_to_bytes_bytes_to_b64].
Qed.

(** ** Stripping *)

Lemma list_ascii_app (a b : string) :
  list_ascii_of_string (a ++ b) = (list_ascii_of_string a ++ list_ascii_of_string b)%list.
Proof. induction a as [|c a IH]; cbn; [reflexivity|rewrite IH; reflexivity]. Qed.

Lemma string_of_list_app (l1 l2 : list ascii) :
  string_of_list_ascii (l1 ++ l2) = string_of_list_ascii l1 ++ string_of_list_ascii l2.
Proof. induction l1 as [|c l1 IH]; cbn; [reflexivity|rewrite IH; reflexivity]. Qed.

Lemma reverse_app (a b : string) : Py.reverse (a ++ b) = Py.reverse b ++ Py.reverse a.
Proof.
  unfold Py.reverse. rewrite list_ascii_app, rev_app_distr, string_of_list_app. reflexivity.
Qed.

Lemma reverse_involutive (s : string) : Py.reverse (Py.reverse s) = s.
Proof.
  unfold Py.reverse.
  rewrite list_ascii_of_string_of_list_ascii, rev_involutive.
  apply string_of_list_ascii_of_string.
Qed.

Lemma reverse_cons (a : ascii) (s : string) :
  Py.reverse (String a s) = Py.reverse s ++ String a "".
Proof. exact (reverse_app (String a "") s). Qed.

Lemma whitespace_app (a b : string) : whitespace a -> whitespace b -> whitespace (a ++ b).
Proof.
  intros Ha Hb. induction Ha; cbn [append];
    [exact Hb|apply whitespace_one|apply whitespace_two|apply whitespace_three];
    assumption.
Qed.

Lemma dropped_more (backwards : bool) (u r pre : string) :
  whitespace (if backwards then Py.reverse u else u) ->
  Py.drop_space backwards (u ++ r) = Py.drop_space backwards r ->
  dropped backwards r pre -> dropped backwards (u ++ r) (u ++ pre).
Proof.
  intros Hu Hd (Hr & Hw & H1 & H2 & H3). unfold dropped. rewrite Hd.
  split; [rewrite app_assoc; f_equal; exact Hr|].
  split; [|auto].
  destruct backwards.
  - rewrite reverse_app. apply whitespace_app; assumption.
  - apply whitespace_app; assumption.
Qed.

Lemma drop_space_spec (backwards : bool) (n : nat) :
  forall s : string,
    String.length s <= n -> exists pre, dropped backwards s pre.
Proof.
  induction n as [|n IH]; intros s Hlen.
  - destruct s; [|simpl in Hlen; lia]. exists "". unfold dropped.
    split; [reflexivity|]. split; [destruct backwards; constructor|].
    repeat split; discriminate.
  - destruct s as [|a r].
    { exists "". unfold dropped. split; [reflexivity|].
      split; [destruct backwards; constructor|]. repeat split; discriminate. }
    simpl in Hlen. destruct (Py.space1 a) eqn:Ha.
    { destruct (IH r) as (pre & Hpre); [lia|].
      exists (String a "" ++ pre).
      apply (dropped_more backwards (String a "") r pre); [|cbn; rewrite Ha; reflexivity|exact Hpre].
      destruct backwards; cbn; apply whitespace_one; auto; constructor. }
    destruct r as [|b r2].
    { exists "". unfold dropped. cbn [Py.drop_space]. rewrite Ha.
      split; [reflexivity|]. split; [destruct backwards; constructor|].
      repeat split.
      - intros x t H. injection H as <- _. exact Ha.
      - discriminate.
      - discriminate. }
    simpl in Hlen.
    destruct (if backwards then Py.space2 b a else Py.space2 a b) eqn:Hab.
    { destruct (IH r2) as (pre & Hpre); [lia|].
      exists (String a (String b "") ++ pre).
      apply (dropped_more backwards (String a (String b "")) r2 pre);
        [|cbn; rewrite Ha, Hab; reflexivity|exact Hpre].
      destruct backwards; cbn; apply whitespace_two; auto; constructor. }
    destruct r2 as [|c r3].
    { exists "". unfold dropped. cbn [Py.drop_space]. rewrite Ha, Hab.
      split; [reflexivity|]. split; [destruct backwards; constructor|].
      repeat split.
      - intros x t H. injection H as <- _. exact Ha.
      - intros x y t H. injection H as <- <- _. exact Hab.
      - discriminate. }
    simpl in Hlen.
    destruct (if backwards then Py.space3 c b a else Py.space3 a b c) eqn:Habc.
    { destruct (IH r3) as (pre & Hpre); [lia|].
      exists (String a (String b (String c "")) ++ pre).
      apply (dropped_more backwards (String a (String b (String c ""))) r3 pre);
        [|cbn; rewrite Ha, Hab, Habc; reflexivity|exact Hpre].
      destruct backwards; cbn; apply whitespace_three; auto; constructor. }
    exists "". unfold dropped. cbn [Py.drop_space]. rewrite Ha, Hab, Habc.
    split; [reflexivity|]. split; [destruct backwards; constructor|].
    repeat split.
    + intros x t H. injection H as <- _. exact Ha.
    + intros x y t H. injection H as <- <- _. exact Hab.
    + intros x y z t H. injection H as <- <- <- _. exact Habc.
Qed.

(** [strip] cuts whitespace, and nothing else, off both ends, and cuts all
    of it. *)
Lemma strip_spec (s : string) :
  exists pre post,
    s = pre ++ Py.strip s ++ post
    /\ whitespace pre
    /\ whitespace post
    /\ ~ begins_with_space (Py.strip s)
    /\ ~ ends_with_space (Py.strip s).
Proof.
  unfold Py.strip, Py.lstrip.
  destruct (drop_space_spec false _ s (Nat.le_refl _))
    as (pre & Hs & Hpre & Hh1 & Hh2 & Hh3).
  set (x := Py.drop_space false s) in *.
  unfold Py.rstrip.
  destruct (drop_space_spec true _ (Py.reverse x) (Nat.le_refl _))
    as (q & Hx & Hq & Hl1 & Hl2 & Hl3).
  set (d := Py.drop_space true (Py.reverse x)) in *.
  assert (Hx' : x = Py.reverse d ++ Py.reverse q).
  { rewrite <- reverse_app, <- Hx. symmetry. apply reverse_involutive. }
  assert (Hd : forall t, Py.reverse d = t -> d = Py.reverse t).
  { intros t <-. symmetry. apply reverse_involutive. }
  exists pre, (Py.reverse q). split; [rewrite <- Hx'; exact Hs|].
  split; [exact Hpre|]. split; [exact Hq|]. split.
  - intros [(a & r & Ht & Ha)|[(a & b & r & Ht & Ha)|(a & b & c & r & Ht & Ha)]];
      rewrite Ht in Hx'; cbn [append] in Hx'.
    + rewrite (Hh1 _ _ Hx') in Ha. discriminate.
    + rewrite (Hh2 _ _ _ Hx') in Ha. discriminate.
    + rewrite (Hh3 _ _ _ _ Hx') in Ha. discriminate.
  - intros [(r & a & Ht & Ha)|[(r & a & b & Ht & Ha)|(r & a & b & c & Ht & Ha)]];
      apply Hd in Ht; rewrite reverse_app in Ht.
    + rewrite (Hl1 a (Py.reverse r) Ht) in Ha. discriminate.
    + rewrite (Hl2 b a (Py.reverse r) Ht) in Ha. discriminate.
    + rewrite (Hl3 c b a (Py.reverse r) Ht) in Ha. discriminate.
Qed.

(** X16. An improve request whose client cannot be built makes no call and
    is answered by an HTTP 500 with the message of the constructor.
    Otherwise it makes one call, on [textModel] at temperature 0.35, whose
    text quotes the target and ends with the text to improve; an exception
    of the service is passed on as an HTTP 500 with its message; and the
    answer is the text of the reply with the whitespace cut off both ends:
    what is cut is whitespace only, what is left neither begins nor ends
    with a whitespace character, and a reply without text gives the empty
    text. *)
Theorem improve_text_trimmed (req : ImproveReq.t) (h : History) :
  match client_error remote (ImproveReq.apiKey req) with
  | Some e => improve req h = ([], inl {| status_code := 500; detail := e |})
  | None =>
      fst (improve req h)
      = [GenerateContent {| api_key := ImproveReq.apiKey req |} (ImproveReq.textModel req)
           (Text ("Improve this image editing/generation prompt for target '"
                  ++ ImproveReq.target req ++ "'. "
                  ++ "Keep the intent, make it more specific and visually descriptive. "
                  ++ "Output ONLY the improved prompt text, nothing else." ++ NL ++ NL
                  ++ "PROMPT: " ++ ImproveReq.text req))
           {| response_modalities := None; temperature := Some 35%N;
              max_output_tokens := None |}]
      /\ match answer h (improve_call req) with
         | inl e => snd (improve req h) = inl {| status_code := 500; detail := e |}
         | inr resp =>
             exists t pre post : string,
               snd (improve req h) = inr {| resp_text := t |}
               /\ response_text resp = pre ++ t ++ post
               /\ whitespace pre
               /\ whitespace post
               /\ ~ begins_with_space t
               /\ ~ ends_with_space t
               /\ (text resp = None -> t = "")
         end
  end.
Proof.
  rewrite improve_run.
  destruct (client_error remote _) as [e|]; [reflexivity|]. cbn zeta.
  split; [reflexivity|]. cbn [snd].
  unfold improve_call, answer.
  destruct (models_generate_content remote h _ _ _ _) as [e|resp]; [reflexivity|].
  destruct (strip_spec (response_text resp)) as (pre & post & Hs & Hpre & Hpost & Hb & He).
  exists (Py.strip (response_text resp)), pre, post.
  repeat apply conj; auto.
  intros Hnone. unfold response_text. rewrite Hnone. reflexivity.
Qed.

(** ** Code fences *)

Ltac fence_cases c r :=
  destruct c as [[] [] [] [] [] [] [] []]; try reflexivity;
  destruct r as [|c r]; try reflexivity;
  destruct c as [[] [] [] [] [] [] [] []]; try reflexivity;
  destruct r as [|c r]; try reflexivity;
  destruct c as [[] [] [] [] [] [] [] []]; reflexivity.

Lemma re_sub_fence_eq (in_tag : bool) (c : ascii) (r : string) :
  Py.re_sub_fence in_tag (String c r) =
  if in_tag && Py.is_lower c then Py.re_sub_fence true r
  else if starts_fence (String c r)
       then Py.re_sub_fence true (after_fence (String c r))
       else String c (Py.re_sub_fence false r).
Proof.
  cbn [Py.re_sub_fence]. destruct (in_tag && Py.is_lower c); [reflexivity|].
  fence_cases c r.
Qed.

Lemma replace_fence_eq (c : ascii) (r : string) :
  Py.replace_fence (String c r) =
  if starts_fence (String c r)
  then Py.replace_fence (after_fence (String c r))
  else String c (Py.replace_fence r).
Proof. cbn [Py.replace_fence]. fence_cases c r. Qed.

Lemma starts_fence_lead (s : string) : starts_fence s = true <-> 3 <= lead s.
Proof.
  destruct s as [|a [|b [|c r]]]; cbn; try (split; [discriminate|lia]).
  - destruct (Ascii.eqb a "`"); cbn; split; try discriminate; lia.
  - destruct (Ascii.eqb a "`"), (Ascii.eqb b "`"); cbn; split; try discriminate; lia.
  - destruct (Ascii.eqb a "`"), (Ascii.eqb b "`"), (Ascii.eqb c "`"); cbn;
      split; try discriminate; try reflexivity; lia.
Qed.

Lemma no_fence_lead (s : string) : has_fence s = false -> lead s <= 2.
Proof.
  intros H. destruct s as [|c r]; [cbn; lia|].
  cbn [has_fence] in H. apply orb_false_iff in H as [H _].
  destruct (le_lt_dec 3 (lead (String c r))) as [Hge|Hlt]; [|lia].
  apply starts_fence_lead in Hge. congruence.
Qed.

Lemma after_fence_length (c : ascii) (r : string) :
  String.length (after_fence (String c r)) <= String.length r.
Proof. destruct r as [|b [|d r]]; cbn; lia. Qed.

(** What [re.sub] leaves has no run of three backquotes, and outside a
    match it begins with no more backquotes than the text did. *)
Lemma re_sub_fence_inv (n : nat) :
  forall s : string,
    String.length s <= n ->
    (forall in_tag, has_fence (Py.re_sub_fence in_tag s) = false)
    /\ lead (Py.re_sub_fence false s) <= lead s.
Proof.
  induction n as [|n IH]; intros s Hlen.
  - destruct s; [|simpl in Hlen; lia]. split; [reflexivity|cbn; lia].
  - destruct s as [|c r]; [split; [reflexivity|cbn; lia]|].
    simpl in Hlen.
    destruct (IH r ltac:(lia)) as [Hr Hlr].
    destruct (IH (after_fence (String c r))) as [Ha _];
      [pose proof (after_fence_length c r); lia|].
    assert (Hplain : starts_fence (String c r) = false ->
                     has_fence (String c (Py.re_sub_fence false r)) = false).
    { intros Hs. cbn [has_fence]. rewrite (Hr false), orb_false_r.
      destruct (starts_fence (String c (Py.re_sub_fence false r))) eqn:Hs'; [|reflexivity].
      apply starts_fence_lead in Hs'.
      assert (3 <= lead (String c r)) as Hge
        by (cbn [lead] in *; destruct (Ascii.eqb c "`"); lia).
      apply starts_fence_lead in Hge. congruence. }
    split.
    + intros in_tag. rewrite re_sub_fence_eq.
      destruct (in_tag && Py.is_lower c); [apply Hr|].
      destruct (starts_fence (String c r)) eqn:Hs; [apply Ha|apply Hplain, eq_refl].
    + rewrite re_sub_fence_eq. cbn [andb].
      destruct (starts_fence (String c r)) eqn:Hs.
      * apply starts_fence_lead in Hs. pose proof (no_fence_lead _ (Ha true)). lia.
      * cbn [lead]. destruct (Ascii.eqb c "`"); lia.
Qed.

Lemma replace_fence_id (s : string) : has_fence s = false -> Py.replace_fence s = s.
Proof.
  induction s as [|c r IH]; [reflexivity|].
  intros H. cbn [has_fence] in H. apply orb_false_iff in H as [Hs Hr].
  rewrite replace_fence_eq, Hs, (IH Hr). reflexivity.
Qed.

Lemma replace_after_re_sub (s : string) :
  Py.replace_fence (Py.re_sub_fence false s) = Py.re_sub_fence false s.
Proof.
  apply replace_fence_id.
  exact (proj1 (re_sub_fence_inv _ s (Nat.le_refl _)) false).
Qed.

Lemma clean_text_re_sub (resp : Response) :
  clean_text resp = Py.strip (Py.re_sub_fence false (response_text resp)).
Proof. unfold clean_text. rewrite replace_after_re_sub. reflexivity. Qed.

Lemma append_empty (s : string) : s ++ "" = s.
Proof. induction s as [|c s IH]; cbn; [reflexivity|rewrite IH; reflexivity]. Qed.

(** X17. No run of three backquotes survives the [re.sub] of
    [decompose_sync], so the [replace] that follows it changes nothing:
    the text parsed is the stripped result of the [re.sub]. *)
Theorem clean_text_replace_redundant (resp : Response) :
  has_fence (Py.re_sub_fence false (response_text resp)) = false
  /\ clean_text resp = Py.strip (Py.re_sub_fence false (response_text resp)).
Proof.
  split.
  - exact (proj1 (re_sub_fence_inv _ _ (Nat.le_refl _)) false).
  - apply clean_text_re_sub.
Qed.

Lemma contains_char_append (ch : ascii) (a b : string) :
  Py.contains_char ch (a ++ b) = Py.contains_char ch a || Py.contains_char ch b.
Proof.
  induction a as [|c a IH]; cbn; [reflexivity|].
  destruct (Ascii.eqb c ch); [reflexivity|exact IH].
Qed.

Lemma re_sub_fence_plain (x rest : string) :
  Py.contains_char "`" x = false ->
  Py.re_sub_fence false (x ++ rest) = x ++ Py.re_sub_fence false rest.
Proof.
  induction x as [|c x IH]; [reflexivity|].
  cbn [Py.contains_char append]. destruct (Ascii.eqb c "`") eqn:Hc; [discriminate|].
  intros Hx. rewrite re_sub_fence_eq. cbn [andb starts_fence]. rewrite Hc. cbn [andb].
  rewrite (IH Hx). reflexivity.
Qed.

Lemma lstrip_brace (r : string) : Py.drop_space false (String "{" r) = String "{" r.
Proof. destruct r as [|b [|c r]]; reflexivity. Qed.

Lemma rstrip_brace (r : string) : Py.drop_space true (String "}" r) = String "}" r.
Proof.
  destruct r as [|b [|c r]]; cbn [Py.drop_space]; try reflexivity;
    unfold Py.space2, Py.space3; cbn; rewrite ?andb_false_r; reflexivity.
Qed.

Lemma reverse_braced (mid : string) :
  Py.reverse ("{" ++ mid ++ "}") = String "}" (Py.reverse mid ++ "{").
Proof.
  change ("{" ++ mid ++ "}") with ("{" ++ (mid ++ "}")).
  rewrite reverse_app, reverse_app. reflexivity.
Qed.

Lemma strip_braced (mid : string) :
  Py.strip ("{" ++ mid ++ "}") = "{" ++ mid ++ "}"
  /\ Py.strip (NL ++ "{" ++ mid ++ "}" ++ NL) = "{" ++ mid ++ "}".
Proof.
  assert (Hr : Py.rstrip ("{" ++ mid ++ "}") = "{" ++ mid ++ "}").
  { unfold Py.rstrip. rewrite reverse_braced, rstrip_brace, <- reverse_braced.
    apply reverse_involutive. }
  assert (Hrn : Py.rstrip (("{" ++ mid ++ "}") ++ NL) = "{" ++ mid ++ "}").
  { unfold Py.rstrip. rewrite reverse_app, reverse_braced.
    change (Py.reverse NL ++ String "}" (Py.reverse mid ++ "{"))
      with (String (ascii_of_nat 10) (String "}" (Py.reverse mid ++ "{"))).
    change (Py.drop_space true (String (ascii_of_nat 10) (String "}" (Py.reverse mid ++ "{"))))
      with (Py.drop_space true (String "}" (Py.reverse mid ++ "{"))).
    rewrite rstrip_brace, <- reverse_braced. apply reverse_involutive. }
  split.
  - unfold Py.strip, Py.lstrip.
    change ("{" ++ mid ++ "}") with (String "{" (mid ++ "}")) at 1.
    rewrite lstrip_brace. exact Hr.
  - unfold Py.strip, Py.lstrip.
    change (Py.drop_space false (NL ++ "{" ++ mid ++ "}" ++ NL))
      with (Py.drop_space false (String "{" (mid ++ "}" ++ NL))).
    rewrite lstrip_brace.
    replace (String "{" (mid ++ "}" ++ NL)) with (("{" ++ mid ++ "}") ++ NL); [exact Hrn|].
    cbn [append]. rewrite app_assoc. reflexivity.
Qed.

(** X18. A JSON object is handed to [json.loads] as it is, whether the reply
    gives it bare, inside a [```json] fence or inside a fence without a
    tag. *)
Theorem clean_text_fenced (resp : Response) (mid : string) :
  Py.contains_char "`" mid = false ->
  text resp = Some ("{" ++ mid ++ "}")
  \/ text resp = Some ("```json" ++ NL ++ "{" ++ mid ++ "}" ++ NL ++ "```")
  \/ text resp = Some ("```" ++ NL ++ "{" ++ mid ++ "}" ++ NL ++ "```") ->
  clean_text resp = "{" ++ mid ++ "}".
Proof.
  intros Hmid Htext.
  assert (Hbody : forall tail, Py.contains_char "`" tail = false ->
                    Py.contains_char "`" ("{" ++ mid ++ "}" ++ tail) = false).
  { intros tail Ht. cbn [append Py.contains_char Ascii.eqb Bool.eqb].
    rewrite contains_char_append, Hmid. cbn. exact Ht. }
  destruct (strip_braced mid) as [Hbare Hfenced].
  rewrite clean_text_re_sub.
  unfold response_text.
  destruct Htext as [-> | [-> | ->]].
  - rewrite <- (append_empty ("{" ++ mid ++ "}")) at 1.
    rewrite re_sub_fence_plain, append_empty by (rewrite <- (append_empty "}"); apply Hbody; reflexivity).
    exact Hbare.
  - change (Py.re_sub_fence false ("```json" ++ NL ++ "{" ++ mid ++ "}" ++ NL ++ "```"))
      with (NL ++ Py.re_sub_fence false ("{" ++ mid ++ "}" ++ NL ++ "```")).
    replace ("{" ++ mid ++ "}" ++ NL ++ "```") with (("{" ++ mid ++ "}" ++ NL) ++ "```")
      by (cbn [append]; rewrite !app_assoc; reflexivity).
    rewrite re_sub_fence_plain by (apply Hbody; reflexivity).
    change (Py.re_sub_fence false "```") with EmptyString. rewrite append_empty.
    exact Hfenced.
  - change (Py.re_sub_fence false ("```" ++ NL ++ "{" ++ mid ++ "}" ++ NL ++ "```"))
      with (NL ++ Py.re_sub_fence false ("{" ++ mid ++ "}" ++ NL ++ "```")).
    replace ("{" ++ mid ++ "}" ++ NL ++ "```") with (("{" ++ mid ++ "}" ++ NL) ++ "```")
      by (cbn [append]; rewrite !app_assoc; reflexivity).
    rewrite re_sub_fence_plain by (apply Hbody; reflexivity).
    change (Py.re_sub_fence false "```") with EmptyString. rewrite append_empty.
    exact Hfenced.
Qed.

(** ** Characters outside the alphabet *)

Lemma a2b_base64_skip (c : ascii) (s1 s2 : string) :
  a2b c = None -> Ascii.eqb c pad = false ->
  forall (q : nat) (lc p w : N),
    a2b_base64 (s1 ++ String c s2) q lc p w = a2b_base64 (s1 ++ s2) q lc p w.
Proof.
  intros Hc Hp. induction s1 as [|d s1 IH]; intros q lc p w.
  - cbn [append a2b_base64]. rewrite Hp, Hc. reflexivity.
  - cbn [append a2b_base64].
    destruct (Ascii.eqb d pad).
    + destruct (2 <=? q)%nat; [destruct (4 <=? N.of_nat q + (p + 1))%N|];
        rewrite ?IH; reflexivity.
    + destruct (a2b d) as [v|]; [|apply IH].
      destruct q as [|[|[|q]]]; rewrite IH; reflexivity.
Qed.

Lemma is_ascii_append (a b : string) : is_ascii (a ++ b) = is_ascii a && is_ascii b.
Proof.
  induction a as [|c a IH]; [reflexivity|].
  cbn [append]. rewrite !is_ascii_cons, IH, andb_assoc. reflexivity.
Qed.

(** X19. A character that is not of the base64 alphabet (a line break, a
    space) may stand anywhere in the base64 text of an image: the image is
    read back all the same, with or without the data-URI prefix. *)
Theorem b64_to_bytes_skips_other_characters (b : bytes) (s1 s2 : string) (c : ascii) :
  b64encode b = s1 ++ s2 ->
  a2b c = None ->
  c <> pad -> c <> ","%char -> (N_of_ascii c < 128)%N ->
  b64_to_bytes (s1 ++ String c s2) = inr b
  /\ b64_to_bytes ("data:image/png;base64," ++ s1 ++ String c s2) = inr b.
Proof.
  intros Henc Hc Hpad Hcomma Hascii.
  apply Ascii.eqb_neq in Hpad, Hcomma. apply N.ltb_lt in Hascii.
  assert (Hdec : b64decode (s1 ++ String c s2) = inr b).
  { pose proof (is_ascii_b64encode b) as Ha.
    rewrite Henc, is_ascii_append in Ha. apply andb_true_iff in Ha as [Ha1 Ha2].
    unfold b64decode.
    rewrite is_ascii_append, is_ascii_cons, Ha1, Ha2, Hascii. cbn [andb].
    rewrite (a2b_base64_skip c s1 s2 Hc Hpad), <- Henc.
    apply a2b_base64_b64encode. }
  split.
  - unfold b64_to_bytes.
    pose proof (b64encode_no_comma b) as Hn.
    rewrite Henc, contains_char_append in Hn. apply orb_false_iff in Hn as [Hn1 Hn2].
    rewrite contains_char_append. cbn [Py.contains_char]. rewrite Hn1, Hcomma, Hn2.
    exact Hdec.
  - change ("data:image/png;base64," ++ s1 ++ String c s2)
      with ("data:image/png;base64" ++ String "," (s1 ++ String c s2)).
    rewrite b64_to_bytes_prefixed by reflexivity. exact Hdec.
Qed.

End Gateway.

(* ================================================================== *)
(** * The properties on concrete runs *)

Lemma b64_roundtrip_witness :
  b64_to_bytes (bytes_to_b64 [x89; x50; x4e; x47]) = inr [x89; x50; x4e; x47]
  /\ b64_to_bytes ("data:image/jpeg;base64" ++ String "," "iVBORw==")
     = Base64.b64decode "iVBORw=="
  /\ b64_to_bytes "iVBORw==" = Base64.b64decode "iVBORw==".
Proof.
  destruct b64_roundtrip as (H1 & _ & H3 & H4).
  split; [apply H1|split; [apply H3; reflexivity|apply H4; reflexivity]].
Defined.

Lemma extract_img_no_image_witness :
  let resp := Sample.response_of [Sample.image_part DataOther] (Some "I cannot draw that.") in
  extract_img Sample.pil resp "gemini-2.5-flash-image"
  = inl "No image in response from [gemini-2.5-flash-image]. Got: I cannot draw that.".
Proof.
  intros resp.
  refine (proj1 (extract_img_no_image Sample.pil (Sample.scripted (inr []) []) resp
                   "gemini-2.5-flash-image" _)).
  repeat constructor.
Defined.

Lemma extract_img_first_image_witness :
  let resp := Sample.response_of
                [Sample.image_part DataOther;
                 Sample.image_part (DataStr "iVBORw==");
                 Sample.image_part (DataBytes [x00])] None in
  extract_img Sample.pil resp "gemini-2.5-flash-image" = inr [x89; x50; x4e; x47].
Proof.
  intros resp.
  refine (proj2 (extract_img_first_image Sample.pil resp "gemini-2.5-flash-image"
                   [Sample.image_part DataOther] [Sample.image_part (DataBytes [x00])]
                   (Sample.image_part (DataStr "iVBORw==")) eq_refl _) "iVBORw==" eq_refl).
  repeat constructor.
Defined.

Lemma gen_layer_custom_witness :
  fst (gen_layer Sample.pil Sample.silent (Sample.layer_req "custom") [])
  = [GenerateContent {| api_key := "key" |} "gemini-2.5-flash-image"
       (Text "Draw a red kite.") CFG_IMG].
Proof.
  exact (proj1 (proj2 (gen_layer_custom Sample.pil Sample.silent
                         (Sample.layer_req "custom") [] eq_refl)) eq_refl).
Defined.

Lemma gen_layer_unknown_kind_witness :
  fst (gen_layer Sample.pil Sample.silent (Sample.layer_req "sky") [])
  = [GenerateContent {| api_key := "key" |} "gemini-2.5-flash-image"
       (Text "a cat on a beach") CFG_IMG].
Proof.
  refine (proj1 (proj1 (proj2 (proj2 (gen_layer_unknown_kind Sample.pil Sample.silent
                                        (Sample.layer_req "sky") [] _))) eq_refl)).
  simpl. intuition discriminate.
Defined.



Lemma gen_all_all_or_nothing_witness :
  gen_all Sample.pil Sample.builtins Sample.exhausted (Sample.all_req "a cat" "") []
  = ([all_layer_call (Sample.all_req "a cat" "") "a cat" "" "" "calm" "object";
      all_layer_call (Sample.all_req "a cat" "") "a cat" "" "" "calm" "background"],
     inl {| status_code := 500; detail := "429 RESOURCE_EXHAUSTED" |}).
Proof.
  destruct (gen_all_all_or_nothing Sample.pil Sample.builtins Sample.exhausted
              (Sample.all_req "a cat" "") [])
    as (o & b & l & m & Hdec & Hcalls & Hfail & _).
  injection Hdec as <- <- <- <-.
  destruct (Hfail 1 "429 RESOURCE_EXHAUSTED" eq_refl) as [Hres Hn].
  - intros j Hj. exists (bytes_to_b64 [x89]).
    destruct j as [|j]; [reflexivity|lia].
  - rewrite Hn in Hcalls.
    rewrite (surjective_pairing (gen_all _ _ _ _ _)), Hcalls, Hres. reflexivity.
Defined.

Lemma gen_all_decomposition_iff_witness :
  In (decomposition_call (Sample.all_req "" ""))
     (fst (gen_all Sample.pil Sample.builtins Sample.chatty (Sample.all_req "" "") []))
  /\ ~ In (decomposition_call (Sample.all_req "a cat" ""))
          (fst (gen_all Sample.pil Sample.builtins Sample.exhausted
                  (Sample.all_req "a cat" "") [])).
Proof.
  split.
  - apply (proj2 (proj1 (proj2 (gen_all_decomposition_iff Sample.pil Sample.builtins
                                  Sample.chatty (Sample.all_req "" "") []))
                    eq_refl)).
    split; reflexivity.
  - intros Hin.
    apply (proj1 (gen_all_decomposition_iff Sample.pil Sample.builtins Sample.exhausted
                    (Sample.all_req "a cat" "") [])) in Hin.
    destruct Hin as [Hobj _]. discriminate Hobj.
Defined.

Lemma decompose_unparseable_witness :
  snd (decompose Sample.builtins Sample.chatty Sample.decompose_req [])
  = inr [("object", ""); ("background", ""); ("light", ""); ("mood", "")].
Proof.
  refine (proj2 (decompose_unparseable Sample.builtins Sample.chatty Sample.decompose_req []
                   (Sample.text_reply ("```json" ++ NL ++ "Sure! Here it is." ++ NL ++ "```"))
                   eq_refl _) eq_refl).
  vm_compute. exact I.
Defined.

Lemma connect_fallback_and_errors_witness :
  snd (detect_models Sample.silent {| api_key := "key" |} [])
  = inr ("gemini-2.5-flash-image", "gemini-2.0-flash")
  /\ snd (detect_models Sample.chatty {| api_key := "key" |} [])
     = inr ("gemini-2.5-flash-image", "gemini-2.0-flash")
  /\ connect Sample.silent Sample.keyless_req []
     = ([], inl {| status_code := 400; detail := Sample.missing_key |}).
Proof.
  destruct (connect_fallback_and_errors Sample.pil Sample.builtins Sample.silent)
    as (_ & Hraise & _ & _ & Hkey & _).
  destruct (connect_fallback_and_errors Sample.pil Sample.builtins Sample.chatty)
    as (_ & _ & Habsent & _).
  split; [|split].
  - exact (Hraise {| api_key := "key" |} [] "503 UNAVAILABLE" eq_refl).
  - apply (Habsent {| api_key := "key" |} [] [] eq_refl). intros m _ [].
  - exact (Hkey Sample.keyless_req [] Sample.missing_key eq_refl).
Defined.

Lemma b64_to_bytes_any_prefix_witness :
  b64_to_bytes ("data:image/jpeg;base64" ++ String "," (Base64.b64encode [xff; xd8; xff]))
  = inr [xff; xd8; xff].
Proof.
  exact (proj2 (b64_to_bytes_any_prefix [xff; xd8; xff]) "data:image/jpeg;base64" eq_refl).
Defined.

Lemma bytes_to_b64_distinct_witness : bytes_to_b64 [x89; x50] <> bytes_to_b64 [x89; x51].
Proof.
  apply (bytes_to_b64_distinct [x89; x50] [x89; x51]). discriminate.
Defined.

Lemma connect_models_built_in_witness :
  In "gemini-2.0-flash-exp" IMAGE_MODELS /\ In "gemini-2.0-flash-lite" TEXT_MODELS.
Proof.
  exact (proj2 (connect_models_built_in Sample.listing Sample.connect_req [])
           {| resp_imageModel := "gemini-2.0-flash-exp";
              resp_textModel := "gemini-2.0-flash-lite" |} eq_refl).
Defined.

Lemma detect_models_first_listed_witness :
  exists before after : list string,
    IMAGE_MODELS = (before ++ "gemini-2.0-flash-exp" :: after)%list
    /\ In "gemini-2.0-flash-exp" (model_names Sample.listed)
    /\ forall x, In x before -> ~ In x (model_names Sample.listed).
Proof.
  apply (proj1 (detect_models_first_listed Sample.listing {| api_key := "key" |} []
                  Sample.listed "gemini-2.0-flash-exp" "gemini-2.0-flash-lite"
                  eq_refl eq_refl)).
  exists "gemini-2.0-flash-exp". split; cbn; tauto.
Defined.

Lemma model_names_last_segment_witness :
  In "gemini-2.0-flash-exp" (model_names Sample.listed).
Proof.
  apply (proj1 (model_names_last_segment Sample.listed) "models" "gemini-2.0-flash-exp"
           eq_refl).
  cbn. tauto.
Defined.

Lemma connect_calls_witness :
  exists tm : string,
    In tm TEXT_MODELS
    /\ fst (connect Sample.listing Sample.connect_req [])
       = [ListModels {| api_key := "key" |};
          GenerateContent {| api_key := "key" |} tm
            (Text "Reply with just the word OK.")
            {| response_modalities := None; temperature := None;
               max_output_tokens := Some 5%N |}].
Proof. exact (connect_calls Sample.listing Sample.connect_req []). Defined.

Lemma edit_image_checked_first_witness :
  fst (edit Sample.pil Sample.silent (Sample.edit_req "data:image/jpeg;base64,/9j/") [])
  = [GenerateContent {| api_key := "key" |} "gemini-2.5-flash-image"
       (Parts [Part_from_bytes [xff; xd8; xff] "image/png";
               Part_from_text ("Make the sky purple." ++ NL ++ NO_CHANGE)])
       CFG_IMG].
Proof.
  exact (proj2 (proj2 (edit_image_checked_first Sample.pil Sample.silent
                         (Sample.edit_req "data:image/jpeg;base64,/9j/") []) eq_refl)
           "data:image/jpeg;base64" [xff; xd8; xff] eq_refl (or_introl eq_refl)).
Defined.

Lemma merge_images_checked_in_order_witness :
  merge Sample.pil Sample.painter (Sample.merge_req "A" "B" "") []
  = ([], inl {| status_code := 500;
                detail := "Invalid base64-encoded string: number of data characters (1) cannot be 1 more than a multiple of 4" |}).
Proof.
  exact (proj1 (proj2 (merge_images_checked_in_order Sample.pil Sample.painter
                         (Sample.merge_req "A" "B" "") []) eq_refl) _ eq_refl).
Defined.

Lemma routes_call_counts_witness :
  List.length (fst (connect Sample.listing Sample.connect_req [])) = 2
  /\ List.length (fst (connect Sample.listing Sample.keyless_req [])) = 0
  /\ List.length (fst (edit Sample.pil Sample.painter (Sample.edit_req "A") [])) = 0
  /\ List.length (fst (edit Sample.pil Sample.painter (Sample.edit_req "iQ==") [])) = 1.
Proof.
  destruct (routes_call_counts Sample.pil Sample.builtins Sample.listing [])
    as (Hconnect & _).
  destruct (routes_call_counts Sample.pil Sample.builtins Sample.painter [])
    as (_ & _ & _ & Hedit & _).
  repeat apply conj.
  - exact (Hconnect Sample.connect_req).
  - exact (Hconnect Sample.keyless_req).
  - exact (Hedit (Sample.edit_req "A")).
  - exact (Hedit (Sample.edit_req "iQ==")).
Defined.

Lemma merge_instr_hint_witness :
  merge_instr (Sample.merge_req "" "" "   ") = merge_base "cat" "sunset beach".
Proof.
  apply (proj1 (merge_instr_hint (Sample.merge_req "" "" "   "))).
  repeat constructor.
Defined.

Lemma gen_all_decomposition_overrides_witness :
  gen_all Sample.pil Sample.builtins Sample.chatty
    (with_light_mood (Sample.all_req "" "") "neon" "tense") []
  = gen_all Sample.pil Sample.builtins Sample.chatty (Sample.all_req "" "") [].
Proof.
  exact (gen_all_decomposition_overrides Sample.pil Sample.builtins Sample.chatty
           (Sample.all_req "" "") [] "neon" "tense" eq_refl eq_refl).
Defined.

Lemma gen_all_after_failed_parse_witness :
  exists n : nat,
    1 <= n <= 4
    /\ fst (gen_all Sample.pil Sample.builtins Sample.chatty (Sample.all_req "" "") [])
       = decomposition_call (Sample.all_req "" "")
         :: firstn n (map (all_layer_call (Sample.all_req "" "") "" "" "" "") LAYER_KINDS).
Proof.
  refine (proj1 (gen_all_after_failed_parse Sample.pil Sample.builtins Sample.chatty
                   (Sample.all_req "" "") []
                   (Sample.text_reply ("```json" ++ NL ++ "Sure! Here it is." ++ NL ++ "```"))
                   eq_refl eq_refl eq_refl eq_refl _)).
  vm_compute. exact I.
Defined.

Lemma answers_have_four_keys_witness :
  map fst [("object", ""); ("background", ""); ("light", ""); ("mood", "")]
  = ["object"; "background"; "light"; "mood"].
Proof.
  exact (proj1 (answers_have_four_keys Sample.pil Sample.builtins Sample.chatty [])
           Sample.decompose_req _ eq_refl).
Defined.

Lemma returned_images_decode_witness :
  exists png : bytes,
    "data:image/png;base64,iQ==" = bytes_to_b64 png
    /\ b64_to_bytes "data:image/png;base64,iQ==" = inr png.
Proof.
  exact (proj1 (returned_images_decode Sample.pil Sample.builtins Sample.painter [])
           (Sample.layer_req "object") {| resp_image := "data:image/png;base64,iQ==" |}
           eq_refl).
Defined.

Lemma improve_text_trimmed_witness :
  fst (improve Sample.padded Sample.improve_req [])
  = [GenerateContent {| api_key := "key" |} "gemini-2.0-flash"
       (Text ("Improve this image editing/generation prompt for target 'object'. "
              ++ "Keep the intent, make it more specific and visually descriptive. "
              ++ "Output ONLY the improved prompt text, nothing else." ++ NL ++ NL
              ++ "PROMPT: a cat"))
       {| response_modalities := None; temperature := Some 35%N;
          max_output_tokens := None |}]
  /\ exists t pre post : string,
       snd (improve Sample.padded Sample.improve_req []) = inr {| resp_text := t |}
       /\ "  A tabby cat, side view." ++ NL = pre ++ t ++ post
       /\ whitespace pre
       /\ whitespace post
       /\ ~ begins_with_space t
       /\ ~ ends_with_space t.
Proof.
  destruct (improve_text_trimmed Sample.padded Sample.improve_req [])
    as (Hcall & t & pre & post & Hsnd & Htxt & Hpre & Hpost & Hb & He & _).
  split; [exact Hcall|].
  exists t, pre, post. repeat apply conj; assumption.
Defined.

Lemma clean_text_fenced_witness :
  clean_text (Sample.text_reply ("```json" ++ NL ++ "{}" ++ NL ++ "```")) = "{}".
Proof.
  exact (clean_text_fenced
           (Sample.text_reply ("```json" ++ NL ++ "{}" ++ NL ++ "```")) ""
           eq_refl (or_intror (or_introl eq_refl))).
Defined.

Lemma b64_to_bytes_skips_other_characters_witness :
  b64_to_bytes ("TW" ++ String (ascii_of_nat 10) "Fu") = inr [x4d; x61; x6e].
Proof.
  refine (proj1 (b64_to_bytes_skips_other_characters [x4d; x61; x6e] "TW" "Fu"
                   (ascii_of_nat 10) eq_refl eq_refl _ _ eq_refl)); discriminate.
Defined.
